(** * Crypto mini lottery backend: daily spin quota, rewards and Telegram
      payload verification

    A shallow embedding of [src/index.js] (the current server) and of the
    older variant of the same server found next to it, together with the
    properties of the specification that were checked against it.

    Conventions of the embedding
    - JavaScript strings are [string]s (sequences of 8-bit units, compared
      unit by unit); the UTF-8 decoding step of [URLSearchParams] is the
      identity on them.
    - A [Date] is its time value, the number of milliseconds since the epoch,
      a [Z]; a [null] date is [None].
    - [spinsLeft] is an integer [Z]. The balance and the reward values are
      JavaScript numbers. The route is given twice: with exact rationals
      [Q], of which the properties of quota, identity and answers are
      proved, and in [Double] with the binary64 numbers of the machine and
      their rounding addition, of which everything about the amount of a
      balance is proved. The two take the same steps
      ([engines_agree_on_runs]).
    - A JavaScript exception is a [Throw] completion; [try]/[catch] is
      [try_catch].
    - The MongoDB collection is the list of its documents in insertion order;
      a loaded document remembers its position and [save] writes it back
      there. The store is reachable: its calls return.
    - What the process takes from its host and from the runtime (the bot
      token, the time zone, the [crypto] digests, [JSON.parse], [toString])
      is a field of the class [Host].
    - [new Date()] and [Math.random()] are arguments of the handler that
      calls them. *)

From Stdlib Require Import ZArith QArith Qround Lqa Lia Ascii String PrimFloat.
From stdpp Require Import base tactics option list sorting strings.

Local Open Scope Z_scope.

#[local] Set Warnings "-inexact-float".

(** ** JavaScript exceptions *)

Inductive JsError : Type :=
| TypeError (msg : string)
| SyntaxError (msg : string)
| Error (msg : string).

Inductive completion (A : Type) : Type :=
| Normal (a : A)
| Throw (e : JsError).
Arguments Normal {A} a.
Arguments Throw {A} e.

#[global] Instance completion_ret : MRet completion := fun A a => Normal a.
#[global] Instance completion_bind : MBind completion := fun A B f m =>
  match m with
  | Normal a => f a
  | Throw e => Throw e
  end.

(** [try { body } catch (err) { handler err }] *)
Definition try_catch {A} (body : completion A) (handler : JsError → completion A)
  : completion A :=
  match body with
  | Normal a => Normal a
  | Throw e => handler e
  end.

(** ** URLSearchParams *)

Module URLSearchParams.

Definition Entry : Type := string * string.

(** Split on every occurrence of a delimiter; there is always at least one
    piece. *)
Fixpoint splitOn (sep : ascii) (s : string) : list string :=
  match s with
  | EmptyString => [EmptyString]
  | String c s' =>
      if Ascii.eqb c sep then EmptyString :: splitOn sep s'
      else match splitOn sep s' with
           | p :: ps => String c p :: ps
           | [] => [String c EmptyString]
           end
  end.

(** The part before the first delimiter, and the part after it if there is
    one. *)
Fixpoint splitFirst (sep : ascii) (s : string) : string * option string :=
  match s with
  | EmptyString => (EmptyString, None)
  | String c s' =>
      if Ascii.eqb c sep then (EmptyString, Some s')
      else let '(n, v) := splitFirst sep s' in (String c n, v)
  end.

Fixpoint plusToSpace (s : string) : string :=
  match s with
  | EmptyString => EmptyString
  | String c s' =>
      String (if Ascii.eqb c "+" then " "%char else c) (plusToSpace s')
  end.

Definition hexDigit (c : ascii) : option N :=
  let n := N_of_ascii c in
  if ((48 <=? n) && (n <=? 57))%N then Some (n - 48)%N
  else if ((65 <=? n) && (n <=? 70))%N then Some (n - 55)%N
  else if ((97 <=? n) && (n <=? 102))%N then Some (n - 87)%N
  else None.

Fixpoint percentDecode (s : string) : string :=
  match s with
  | EmptyString => EmptyString
  | String c t1 =>
      if Ascii.eqb c "%" then
        match t1 with
        | String h (String l rest) =>
            match hexDigit h, hexDigit l with
            | Some a, Some b =>
                String (ascii_of_N (16 * a + b)) (percentDecode rest)
            | _, _ => String c (percentDecode t1)
            end
        | _ => String c (percentDecode t1)
        end
      else String c (percentDecode t1)
  end.

Definition decodeComponent (s : string) : string :=
  percentDecode (plusToSpace s).

(** The application/x-www-form-urlencoded parser. *)
Definition parsePiece (piece : string) : option Entry :=
  match piece with
  | EmptyString => None
  | _ =>
      let '(n, v) := splitFirst "=" piece in
      Some (decodeComponent n, decodeComponent (default EmptyString v))
  end.

Definition parse (s : string) : list Entry :=
  omap parsePiece (splitOn "&" s).

(** [new URLSearchParams(init)] for a string [init]: one leading question
    mark is dropped. *)
Definition new (init : string) : list Entry :=
  match init with
  | String c rest => if Ascii.eqb c "?" then parse rest else parse init
  | EmptyString => parse init
  end.

(** [params.get(name)]: the value of the first entry of that name, or
    [null]. *)
Fixpoint get (name : string) (params : list Entry) : option string :=
  match params with
  | [] => None
  | (k, v) :: rest => if String.eqb k name then Some v else get name rest
  end.

(** [params.delete(name)]: every entry of that name is removed. *)
Definition delete (name : string) (params : list Entry) : list Entry :=
  filter (λ e : Entry, negb (String.eqb e.1 name) = true) params.

End URLSearchParams.

(** ** JSON values and the host *)

#[warnings="-register-all"]
Inductive JsValue : Type :=
| JNull
| JBool (b : bool)
| JNumber (n : Q)
| JString (s : string)
| JArray (items : list JsValue)
| JObject (props : list (string * JsValue)).

(** Truthiness of a value, and of a string that may be [null]. *)
Definition truthy (v : JsValue) : bool :=
  match v with
  | JNull => false
  | JBool b => b
  | JNumber n => negb (Qeq_bool n 0)
  | JString s => negb (String.eqb s "")
  | JArray _ | JObject _ => true
  end.

Definition truthyStr (s : option string) : bool :=
  match s with
  | None => false
  | Some s => negb (String.eqb s "")
  end.

(** [a || b] on strings that may be [null]. *)
Definition orElse (a b : option string) : option string :=
  if truthyStr a then a else b.

(** [v.name] for a value that is not [null]: [None] is [undefined]. Only
    objects made by [JSON.parse] carry properties of their own here. *)
Fixpoint lookupProp (name : string) (props : list (string * JsValue))
  : option JsValue :=
  match props with
  | [] => None
  | (k, v) :: rest => if String.eqb k name then Some v else lookupProp name rest
  end.

Definition getProp (v : JsValue) (name : string) : option JsValue :=
  match v with
  | JObject props => lookupProp name props
  | _ => None
  end.

(** What the server takes from the process it runs in and from the
    JavaScript runtime. The [crypto] calls and [JSON.parse] may throw. *)
Class Host : Type := {
  (** [process.env.BOT_TOKEN] *)
  BOT_TOKEN : option string;
  (** [crypto.createHash("sha256").update(data).digest()] *)
  createHash_sha256 : string → completion string;
  (** [crypto.createHmac("sha256", key).update(data).digest()] *)
  createHmac_sha256 : string → string → completion string;
  (** [crypto.createHmac("sha256", key).update(data).digest("hex")] *)
  createHmac_sha256_hex : string → string → completion string;
  (** [JSON.parse(text)] *)
  JSON_parse : string → completion JsValue;
  (** [value.toString()] *)
  toString : JsValue → completion string;
  (** The offset of local time from UTC at an instant, in milliseconds. *)
  LocalTZA : Z → Z
}.

Definition LF : string := String "010"%char EmptyString.

(** ** The data model: the [User] collection *)

Module User.

Record t : Type := mk {
  telegramId : string;
  spinsLeft : Z;
  rewards : list string;
  balance : Q;
  lastSpinDate : option Z
}.

(** [new User({ telegramId })] with the defaults of the schema. *)
Definition new (id : string) : t :=
  {| telegramId := id; spinsLeft := 3; rewards := []; balance := 0%Q;
     lastSpinDate := None |}.

Definition set_spinsLeft (n : Z) (u : t) : t :=
  {| telegramId := telegramId u; spinsLeft := n; rewards := rewards u;
     balance := balance u; lastSpinDate := lastSpinDate u |}.

Definition set_lastSpinDate (d : option Z) (u : t) : t :=
  {| telegramId := telegramId u; spinsLeft := spinsLeft u;
     rewards := rewards u; balance := balance u; lastSpinDate := d |}.

Definition set_balance (b : Q) (u : t) : t :=
  {| telegramId := telegramId u; spinsLeft := spinsLeft u;
     rewards := rewards u; balance := b; lastSpinDate := lastSpinDate u |}.

Definition push_reward (label : string) (u : t) : t :=
  {| telegramId := telegramId u; spinsLeft := spinsLeft u;
     rewards := rewards u ++ [label]; balance := balance u;
     lastSpinDate := lastSpinDate u |}.

End User.

(** The collection, and code that runs against it: a computation takes the
    collection, returns or throws, and leaves a collection. *)
Abbreviation Store := (list User.t).

Definition Async (A : Type) : Type := Store → completion A * Store.

#[global] Instance Async_ret : MRet Async := fun A a db => (Normal a, db).
#[global] Instance Async_bind : MBind Async := fun A B f m db =>
  match m db with
  | (Normal a, db') => f a db'
  | (Throw e, db') => (Throw e, db')
  end.

Definition throw {A} (e : JsError) : Async A := fun db => (Throw e, db).

Definition liftC {A} (c : completion A) : Async A := fun db => (c, db).

Definition async_try_catch {A} (body : Async A) (handler : JsError → Async A)
  : Async A :=
  fun db =>
    match body db with
    | (Normal a, db') => (Normal a, db')
    | (Throw e, db') => handler e db'
    end.

Module UserModel.

(** [User.findOne({ telegramId })]: the first document of that id, with its
    position. *)
Definition findOne (id : string) : Async (option (nat * User.t)) :=
  fun db => (Normal (list_find (λ u, User.telegramId u = id) db), db).

(** [user.save()] of a document made by [new User]: it is added at the end
    of the collection; its position is returned. *)
Definition saveNew (u : User.t) : Async nat :=
  fun db => (Normal (length db), db ++ [u]).

(** [user.save()] of a loaded document: the document in hand replaces the
    stored one. (Mongoose sends the fields that were assigned, with the
    values in hand; [spinsLeft] and [balance] are assigned by every granted
    spin.) *)
Definition save (i : nat) (u : User.t) : Async unit :=
  fun db => (Normal tt, <[i := u]> db).

(** [User.updateMany({}, { spinsLeft, lastSpinDate })] *)
Definition updateMany (n : Z) (d : Z) : Async unit :=
  fun db =>
    (Normal tt,
     (λ u, User.set_lastSpinDate (Some d) (User.set_spinsLeft n u)) <$> db).

End UserModel.

(** ** HTTP responses *)

Inductive Body : Type :=
| ErrorBody (error : string)
| NoSpinsBody (error : string) (spinsLeft : Z)
| RewardBody (reward : string) (balance : Q) (spinsLeft : Z).

Record Response : Type := json { status : Z; body : Body }.

(** ** The reward table *)

Record Reward : Type := mkReward { label : string; value : Q }.

Definition rewards : list Reward :=
  [ mkReward "0.001 ETH" (1 # 1000);
    mkReward "5 USDT" 5;
    mkReward "Try Again" 0;
    mkReward "0.1 ETH" (1 # 10) ].

(** [arr[i]] for an integer index: [undefined] outside the array. *)
Definition index {A} (arr : list A) (i : Z) : option A :=
  if i <? 0 then None else arr !! Z.to_nat i.

(** [rewards[Math.floor(Math.random() * rewards.length)]], the value of
    [Math.random()] being [random]. *)
Definition drawIndex (random : Q) : Z :=
  Qfloor (random * inject_Z (Z.of_nat (length rewards))).

Definition drawReward (random : Q) : option Reward :=
  index rewards (drawIndex random).

Definition msPerDay : Z := 86400000.

(** The day number of a time value, [Day(t)] of the language standard. *)
Definition Day (t : Z) : Z := t `div` msPerDay.

Section Server.

Context `{host : Host}.

(** *** verifyTelegram *)

(** The lines [key=val], sorted as strings and joined by line feeds. *)
Definition dataCheckString (parsed : list URLSearchParams.Entry) : string :=
  String.concat LF
    (merge_sort String.le
       (map (λ e : URLSearchParams.Entry, e.1 +:+ "=" +:+ e.2) parsed)).

(** The body of [verifyTelegram] from the point where the payload has been
    parsed. *)
Definition verifyParsed (parsed : list URLSearchParams.Entry)
  : completion bool :=
  let hash := URLSearchParams.get "hash" parsed in
  if negb (truthyStr hash) then mret false
  else
    let parsed := URLSearchParams.delete "hash" parsed in
    let dataCheckString := dataCheckString parsed in
    secretKey ← createHash_sha256 (default "" (orElse BOT_TOKEN (Some "")));
    hmac ← createHmac_sha256_hex secretKey dataCheckString;
    mret (String.eqb hmac (default "" hash)).

Definition verifyTelegram (initData : option string) : completion bool :=
  try_catch
    (if negb (truthyStr initData) then mret false
     else verifyParsed (URLSearchParams.new (default "" initData)))
    (λ err, mret false).

(** *** extractTelegramId *)

(** The [if (userStr)] block: [Some id] when it returns [id]. *)
Definition idFromUser (userStr : option string)
  : completion (option string) :=
  if truthyStr userStr then
    userObj ← JSON_parse (default "" userStr);
    match (if truthy userObj then getProp userObj "id" else None) with
    | Some id =>
        if truthy id then s ← toString id; mret (Some s) else mret None
    | None => mret None
    end
  else mret None.

Definition extractTelegramId (initData : string)
  : completion (option string) :=
  try_catch
    (let parsed := URLSearchParams.new initData in
     let userStr := URLSearchParams.get "user" parsed in
     fromUser ← idFromUser userStr;
     match fromUser with
     | Some id => mret (Some id)
     | None =>
         let id :=
           orElse
             (orElse (URLSearchParams.get "id" parsed)
                (URLSearchParams.get "user_id" parsed))
             (URLSearchParams.get "user_id" parsed) in
         if truthyStr id then mret id else mret None
     end)
    (λ err, mret None).

(** *** The spin route *)

(** [date.toDateString()]: the calendar date of the instant in the local
    time of the host. Two such strings are equal exactly when the local
    day numbers are, so the day number stands for the string. *)
Definition toDateString (t : Z) : Z := Day (t + LocalTZA t).

(** The condition and the effect of lines 204-207. *)
Definition rolloverDue (today : Z) (user : User.t) : bool :=
  match User.lastSpinDate user with
  | None => true
  | Some last => negb (toDateString last =? toDateString today)
  end.

Definition rollover (today : Z) (user : User.t) : User.t :=
  if rolloverDue today user
  then User.set_lastSpinDate (Some today) (User.set_spinsLeft 3 user)
  else user.

(** Lines 222-226, the sum taken exactly; [Double.applyReward] takes it as
    the machine does. *)
Definition applyReward (reward : Reward) (user : User.t) : User.t :=
  if Qlt_le_dec 0 (value reward)
  then User.push_reward (label reward)
         (User.set_balance (User.balance user + value reward)%Q user)
  else user.

(** Lines 197-201: the document of the caller, made if there is none. *)
Definition loadUser (telegramId : string) : Async (nat * User.t) :=
  found ← UserModel.findOne telegramId;
  match found with
  | Some doc => mret doc
  | None =>
      let user := User.new telegramId in
      i ← UserModel.saveNew user;
      mret (i, user)
  end.

(** Lines 203-230, for the document at position [i]; [today] is the value
    of [new Date()] and [random] that of [Math.random()]. *)
Definition spinLoaded (today : Z) (random : Q) (i : nat) (user : User.t)
  : Async Response :=
  let user := rollover today user in
  if User.spinsLeft user <=? 0 then
    mret (json 200 (NoSpinsBody "No spins left today" (User.spinsLeft user)))
  else
    let user := User.set_spinsLeft (User.spinsLeft user - 1) user in
    match drawReward random with
    | None => throw (TypeError "Cannot read properties of undefined")
    | Some reward =>
        let user := applyReward reward user in
        _ ← UserModel.save i user;
        mret (json 200
                (RewardBody (label reward) (User.balance user)
                   (User.spinsLeft user)))
    end.

(** Lines 197-230. *)
Definition spinEngine (telegramId : string) (today : Z) (random : Q)
  : Async Response :=
  doc ← loadUser telegramId;
  spinLoaded today random doc.1 doc.2.

(** The [try]/[catch] of a route: what was thrown becomes a 500. *)
Definition route (handler : Async Response) : Store → Response * Store :=
  fun db =>
    match handler db with
    | (Normal r, db') => (r, db')
    | (Throw _, db') => (json 500 (ErrorBody "Internal server error"), db')
    end.

(** [POST /api/spin] with [req.body.initData = initData]. *)
Definition post_api_spin (initData : option string) (today : Z) (random : Q)
  : Store → Response * Store :=
  route
    (if negb (truthyStr initData) then
       mret (json 400 (ErrorBody "Missing initData"))
     else
       ok ← liftC (verifyTelegram initData);
       if negb ok then mret (json 403 (ErrorBody "Invalid Telegram data"))
       else
         telegramId ← liftC (extractTelegramId (default "" initData));
         if negb (truthyStr telegramId) then
           mret (json 400 (ErrorBody "Cannot determine user id"))
         else spinEngine (default "" telegramId) today random).

(** *** The daily reset and the [/start] command *)

Definition resetSpinsForAllUsers (now : Z) : Async unit :=
  async_try_catch (UserModel.updateMany 3 now) (λ err, mret tt).

(** Lines 57-63 of the [/start] handler, inside its [try]/[catch]. *)
Definition bot_start (telegramId : string) : Async unit :=
  async_try_catch (_ ← loadUser telegramId; mret tt) (λ err, mret tt).

(** *** Runs of the server, one request at a time *)

Inductive Op : Type :=
| OpSpin (initData : option string) (today : Z) (random : Q)
| OpStart (telegramId : string)
| OpReset (now : Z).

Definition step (db : Store) (op : Op) : Store :=
  match op with
  | OpSpin initData today random => (post_api_spin initData today random db).2
  | OpStart telegramId => (bot_start telegramId db).2
  | OpReset now => (resetSpinsForAllUsers now db).2
  end.

Definition run (ops : list Op) (db : Store) : Store := fold_left step ops db.

(** *** Requests in flight together

    A handler gives way to the others at each [await]: after it asked for
    [findOne], after it saved a new document, and after the final [save].
    A task is a handler stopped at one of these points. *)

Record Request : Type := mkRequest {
  req_telegramId : string;
  req_today : Z;
  req_random : Q
}.

Inductive Task : Type :=
| AtFindOne
| AtSaveNew
| AtSpin (i : nat) (user : User.t)
| Finished (r : Response).

Definition internalError : Response :=
  json 500 (ErrorBody "Internal server error").

Definition taskStep (rq : Request) (t : Task) (db : Store) : Task * Store :=
  match t with
  | AtFindOne =>
      match UserModel.findOne (req_telegramId rq) db with
      | (Normal (Some doc), db') => (AtSpin doc.1 doc.2, db')
      | (Normal None, db') => (AtSaveNew, db')
      | (Throw _, db') => (Finished internalError, db')
      end
  | AtSaveNew =>
      let user := User.new (req_telegramId rq) in
      match UserModel.saveNew user db with
      | (Normal i, db') => (AtSpin i user, db')
      | (Throw _, db') => (Finished internalError, db')
      end
  | AtSpin i user =>
      let '(r, db') :=
        route (spinLoaded (req_today rq) (req_random rq) i user) db in
      (Finished r, db')
  | Finished r => (Finished r, db)
  end.

(** The requests in flight with the point each one has reached, and the
    collection. A schedule names, step after step, the request that runs. *)
Definition Pool : Type := list (Request * Task) * Store.

Definition schedStep (st : Pool) (k : nat) : Pool :=
  match st.1 !! k with
  | Some (rq, t) =>
      let '(t', db') := taskStep rq t st.2 in (<[k := (rq, t')]> st.1, db')
  | None => st
  end.

Definition runSchedule (sched : list nat) (st : Pool) : Pool :=
  fold_left schedStep sched st.

Definition start (rqs : list Request) (db : Store) : Pool :=
  ((λ rq, (rq, AtFindOne)) <$> rqs, db).

Definition responses (st : Pool) : list (option Response) :=
  (λ p : Request * Task,
     match p.2 with Finished r => Some r | _ => None end) <$> st.1.

(** Calls of one caller served one after the other. *)
Fixpoint spinAll (telegramId : string) (calls : list (Z * Q)) (db : Store)
  : list Response * Store :=
  match calls with
  | [] => ([], db)
  | (today, random) :: rest =>
      let '(r, db1) := route (spinEngine telegramId today random) db in
      let '(rs, db2) := spinAll telegramId rest db1 in
      (r :: rs, db2)
  end.

End Server.

Definition isGranted (r : Response) : bool :=
  match body r with RewardBody _ _ _ => true | _ => false end.

Definition isNoSpinsLeft (r : Response) : bool :=
  match body r with NoSpinsBody _ _ => true | _ => false end.

Definition countIf {A} (p : A → bool) (l : list A) : Z :=
  Z.of_nat (length (List.filter p l)).

(** The value that goes with a label of the table. *)
Definition valueOfLabel (l : string) : Q :=
  match List.find (λ r, String.eqb (label r) l) rewards with
  | Some r => value r
  | None => 0%Q
  end.

Definition grantedValue (r : Response) : Q :=
  match body r with
  | RewardBody l _ _ => valueOfLabel l
  | _ => 0%Q
  end.

Definition sumQ (l : list Q) : Q := fold_right Qplus 0%Q l.

(** ** The older variant of the server *)

Module Legacy.
Section Legacy.

Context `{host : Host}.

(** [verifyTelegram] of the older file: no guard, no [try]/[catch], and
    the key is an HMAC of the token under the label WebAppData. *)
Definition verifyParsed (parsed : list URLSearchParams.Entry)
  : completion bool :=
  let hash := URLSearchParams.get "hash" parsed in
  let parsed := URLSearchParams.delete "hash" parsed in
  let dataCheckString := dataCheckString parsed in
  token ← match BOT_TOKEN with
          | Some t => Normal t
          | None => Throw (TypeError "The data argument must be a string")
          end;
  secretKey ← createHmac_sha256 "WebAppData" token;
  hmac ← createHmac_sha256_hex secretKey dataCheckString;
  mret (match hash with
        | Some h => String.eqb hmac h
        | None => false
        end).

Definition verifyTelegram (initData : option string) : completion bool :=
  verifyParsed (match initData with
                | Some s => URLSearchParams.new s
                | None => []
                end).

End Legacy.
End Legacy.

(** ** Hosts to run the definitions on

    The digests of [exampleHost] are stand-ins that only keep key and data
    apart, and its [JSON.parse] knows the literals [null], [true] and
    [false]; every other text is refused, as a text that is not JSON is. *)

Definition exampleHost (tz : Z) : Host := {|
  BOT_TOKEN := Some "123:secret";
  createHash_sha256 := λ data, Normal ("sha256(" +:+ data +:+ ")");
  createHmac_sha256 := λ key data, Normal ("hmac(" +:+ key +:+ "," +:+ data +:+ ")");
  createHmac_sha256_hex :=
    λ key data, Normal ("hmac(" +:+ key +:+ "," +:+ data +:+ ")");
  JSON_parse := λ text,
    if String.eqb text "null" then Normal JNull
    else if String.eqb text "true" then Normal (JBool true)
    else if String.eqb text "false" then Normal (JBool false)
    else Throw (SyntaxError "Unexpected token");
  toString := λ v,
    match v with
    | JString s => Normal s
    | JBool true => Normal "true"
    | JBool false => Normal "false"
    | _ => Throw (TypeError "toString")
    end;
  LocalTZA := λ _, tz
|}.

(** A host whose local time is UTC, and one an hour ahead of UTC. *)
Definition utcHost : Host := exampleHost 0.
Definition cetHost : Host := exampleHost 3600000.

(** ** Predicates of the properties *)

(** Every account has between no spin and the full allotment left. *)
Definition quotaOk (db : Store) : Prop :=
  Forall (λ u, 0 ≤ User.spinsLeft u ≤ 3) db.

(** The schedule that lets each of [n] handlers run through its three
    steps before the next one starts. *)
Definition serialSchedule (first n : nat) : list nat :=
  flat_map (λ k, [k; k; k]) (seq first n).

(** ** Predicates of the further properties *)

(** The identities of the documents, in the order of the collection. *)
Definition ids (db : Store) : list string := User.telegramId <$> db.


(** The document a granted spin writes back: lines 203-226 on [user]. *)
Definition spent `{host : Host} (today : Z) (reward : Reward) (user : User.t)
  : User.t :=
  applyReward reward
    (User.set_spinsLeft (User.spinsLeft (rollover today user) - 1)
       (rollover today user)).

(** The spins a caller can still be granted on the local day [day]: those
    left if the account last spun on that day, the full allotment if it
    last spun on another day, never spun, or does not exist yet. *)
Definition allowance `{host : Host} (day : Z) (telegramId : string)
    (db : Store) : Z :=
  match list_find (λ u, User.telegramId u = telegramId) db with
  | Some (_, u) =>
      match User.lastSpinDate u with
      | Some last => if toDateString last =? day then User.spinsLeft u else 3
      | None => 3
      end
  | None => 3
  end.

(** A handler that holds a document holds one within the allotment. *)
Definition taskOk (p : Request * Task) : Prop :=
  match p.2 with
  | AtSpin _ user => 0 ≤ User.spinsLeft user ≤ 3
  | _ => True
  end.

(** A host with another bot token. *)
Definition withToken (token : option string) (h : Host) : Host := {|
  BOT_TOKEN := token;
  createHash_sha256 := @createHash_sha256 h;
  createHmac_sha256 := @createHmac_sha256 h;
  createHmac_sha256_hex := @createHmac_sha256_hex h;
  JSON_parse := @JSON_parse h;
  toString := @toString h;
  LocalTZA := @LocalTZA h
|}.

(** The text of a JSON object with the one member [id], the number 7, and
    a host like [utcHost] whose [JSON.parse] knows that text as well. *)
Definition userSeven : string :=
  "{" +:+ String "034"%char "id" +:+ String "034"%char ":7}".

Definition objectHost : Host := {|
  BOT_TOKEN := @BOT_TOKEN utcHost;
  createHash_sha256 := @createHash_sha256 utcHost;
  createHmac_sha256 := @createHmac_sha256 utcHost;
  createHmac_sha256_hex := @createHmac_sha256_hex utcHost;
  JSON_parse := λ text,
    if String.eqb text userSeven then Normal (JObject [("id", JNumber 7)])
    else @JSON_parse utcHost text;
  toString := λ v,
    match v with
    | JNumber n => if Qeq_bool n 7 then Normal "7" else @toString utcHost v
    | _ => @toString utcHost v
    end;
  LocalTZA := @LocalTZA utcHost
|}.

(** ** Dates, after the language standard

    Time values are integers here, so the arithmetic of the standard is the
    arithmetic of [Z]; [NaN] is [None]. *)

Definition DaysInYear (y : Z) : Z :=
  if negb (y mod 4 =? 0) then 365
  else if negb (y mod 100 =? 0) then 366
  else if negb (y mod 400 =? 0) then 365
  else 366.

Definition DayFromYear (y : Z) : Z :=
  365 * (y - 1970) + (y - 1969) / 4 - (y - 1901) / 100 + (y - 1601) / 400.

(** Counting up from [y], at most [fuel] years, to the last year that
    starts on or before [day]. *)
Fixpoint yearFrom (fuel : nat) (y day : Z) : Z :=
  match fuel with
  | O => y
  | S fuel' =>
      if DayFromYear (y + 1) <=? day then yearFrom fuel' (y + 1) day else y
  end.

(** [YearFromTime(t)], the largest year that starts on or before the day of
    [t]: it lies in the cycle of 400 years (146097 days, the first of them
    the first day of 1601) that holds the day. *)
Definition YearFromTime (t : Z) : Z :=
  let day := Day t in
  let cycle := (day - DayFromYear 1601) / 146097 in
  yearFrom 400 (1601 + 400 * cycle) day.

Definition InLeapYear (t : Z) : Z :=
  if DaysInYear (YearFromTime t) =? 366 then 1 else 0.

Definition DayWithinYear (t : Z) : Z := Day t - DayFromYear (YearFromTime t).

(** The tables of [MonthFromTime] and [DateFromTime], on the day within the
    year [d] and the leap flag [L]. *)
Definition monthOfDay (d L : Z) : Z :=
  if d <? 31 then 0
  else if d <? 59 + L then 1
  else if d <? 90 + L then 2
  else if d <? 120 + L then 3
  else if d <? 151 + L then 4
  else if d <? 181 + L then 5
  else if d <? 212 + L then 6
  else if d <? 243 + L then 7
  else if d <? 273 + L then 8
  else if d <? 304 + L then 9
  else if d <? 334 + L then 10
  else 11.

(** The day within the year on which month [m] starts. *)
Definition monthStart (m L : Z) : Z :=
  if m =? 0 then 0
  else if m =? 1 then 31
  else if m =? 2 then 59 + L
  else if m =? 3 then 90 + L
  else if m =? 4 then 120 + L
  else if m =? 5 then 151 + L
  else if m =? 6 then 181 + L
  else if m =? 7 then 212 + L
  else if m =? 8 then 243 + L
  else if m =? 9 then 273 + L
  else if m =? 10 then 304 + L
  else 334 + L.

Definition MonthFromTime (t : Z) : Z :=
  monthOfDay (DayWithinYear t) (InLeapYear t).

Definition DateFromTime (t : Z) : Z :=
  DayWithinYear t - monthStart (MonthFromTime t) (InLeapYear t) + 1.

(** [MakeDay(year, month, date)]: the day of the first of the month, plus
    [date - 1]. *)
Definition MakeDay (year month date : Z) : Z :=
  let ym := year + month / 12 in
  let mn := month mod 12 in
  let L := if DaysInYear ym =? 366 then 1 else 0 in
  DayFromYear ym + monthStart mn L + date - 1.

Definition MakeDate (day time : Z) : Z := day * msPerDay + time.

Definition TimeClip (t : Z) : option Z :=
  if Z.abs t <=? 8640000000000000 then Some t else None.

(** [MakeFullYear(year)]: a year from 0 to 99 stands for a year of the
    twentieth century. *)
Definition MakeFullYear (year : Z) : Z :=
  if (0 <=? year) && (year <=? 99) then 1900 + year else year.

(** [Date.UTC(year, month, date)] *)
Definition Date_UTC (year month date : Z) : option Z :=
  TimeClip (MakeDate (MakeDay (MakeFullYear year) month date) 0).

(** [new Date(value)] for a number, and [getTime()] of it. *)
Definition newDate (value : option Z) : option Z := value ≫= TimeClip.

Definition getUTCFullYear (t : Z) : Z := YearFromTime t.
Definition getUTCMonth (t : Z) : Z := MonthFromTime t.
Definition getUTCDate (t : Z) : Z := DateFromTime t.

(** ** The scheduler

    [scheduleDailyResetAtUtcMidnight] at the instant [now]: the delay
    [msUntilNext] it hands to [setTimeout], [None] if the date is not a
    number. *)
Definition msUntilNext (now : Z) : option Z :=
  next ← newDate
           (Date_UTC (getUTCFullYear now) (getUTCMonth now)
              (getUTCDate now + 1));
  Some (next - now).

(** ** The request body

    [req.body] is [undefined] when no body was parsed. Else [initData] is
    its member of that name, and the handler goes by the kind of value it
    is: a falsy one ([undefined], [null], the empty string, [0], [false])
    counts as missing; a string, or a number or [true], which
    [new URLSearchParams] takes by its text, is parsed as a query string;
    an object or an array is taken by [new URLSearchParams] as the list of
    its fields, or makes it throw. *)
Inductive InitData : Type :=
| InitFalsy
| InitText (text : string)
| InitFields (fields : completion (list URLSearchParams.Entry)).

Definition truthyInit (initData : InitData) : bool :=
  match initData with
  | InitFalsy => false
  | InitText text => negb (String.eqb text "")
  | InitFields _ => true
  end.

(** [new URLSearchParams(initData)]; the handler does not get there with a
    falsy value. *)
Definition paramsOf (initData : InitData)
  : completion (list URLSearchParams.Entry) :=
  match initData with
  | InitFalsy => Normal []
  | InitText text => Normal (URLSearchParams.new text)
  | InitFields fields => fields
  end.

Section Requests.

Context `{host : Host}.

(** [verifyTelegram] and [extractTelegramId] on any value of [initData]. *)
Definition verifyTelegramOf (initData : InitData) : completion bool :=
  try_catch
    (if negb (truthyInit initData) then mret false
     else parsed ← paramsOf initData; verifyParsed parsed)
    (λ err, mret false).

Definition extractTelegramIdOf (initData : InitData)
  : completion (option string) :=
  try_catch
    (parsed ← paramsOf initData;
     let userStr := URLSearchParams.get "user" parsed in
     fromUser ← idFromUser userStr;
     match fromUser with
     | Some id => mret (Some id)
     | None =>
         let id :=
           orElse
             (orElse (URLSearchParams.get "id" parsed)
                (URLSearchParams.get "user_id" parsed))
             (URLSearchParams.get "user_id" parsed) in
         if truthyStr id then mret id else mret None
     end)
    (λ err, mret None).

(** The handler of [POST /api/spin] on the request: [body] is [req.body],
    [None] for [undefined], of which [const { initData } = req.body]
    throws inside the [try]. *)
Definition spinHandler (body : option InitData) (today : Z) (random : Q)
  : Store → Response * Store :=
  route
    (match body with
     | None => throw (TypeError "Cannot destructure property of undefined")
     | Some initData =>
         if negb (truthyInit initData) then
           mret (json 400 (ErrorBody "Missing initData"))
         else
           ok ← liftC (verifyTelegramOf initData);
           if negb ok then mret (json 403 (ErrorBody "Invalid Telegram data"))
           else
             telegramId ← liftC (extractTelegramIdOf initData);
             if negb (truthyStr telegramId) then
               mret (json 400 (ErrorBody "Cannot determine user id"))
             else spinEngine (default "" telegramId) today random
     end).

End Requests.

(** ** The engine with balances as doubles

    The spin route once more, with the balance of a document, the values
    of the reward table and the balance of an answer as binary64 numbers,
    added and compared as the machine does. Everything that is not a
    balance is as above. *)

Module Double.

Module User.

Record t : Type := mk {
  telegramId : string;
  spinsLeft : Z;
  rewards : list string;
  balance : float;
  lastSpinDate : option Z
}.

(** [new User({ telegramId })] with the defaults of the schema. *)
Definition new (id : string) : t :=
  {| telegramId := id; spinsLeft := 3; rewards := []; balance := 0%float;
     lastSpinDate := None |}.

Definition set_spinsLeft (n : Z) (u : t) : t :=
  {| telegramId := telegramId u; spinsLeft := n; rewards := rewards u;
     balance := balance u; lastSpinDate := lastSpinDate u |}.

Definition set_lastSpinDate (d : option Z) (u : t) : t :=
  {| telegramId := telegramId u; spinsLeft := spinsLeft u;
     rewards := rewards u; balance := balance u; lastSpinDate := d |}.

Definition set_balance (b : float) (u : t) : t :=
  {| telegramId := telegramId u; spinsLeft := spinsLeft u;
     rewards := rewards u; balance := b; lastSpinDate := lastSpinDate u |}.

Definition push_reward (label : string) (u : t) : t :=
  {| telegramId := telegramId u; spinsLeft := spinsLeft u;
     rewards := rewards u ++ [label]; balance := balance u;
     lastSpinDate := lastSpinDate u |}.

End User.

Definition Async (A : Type) : Type :=
  list User.t → completion A * list User.t.

#[global] Instance Async_ret : MRet Async := fun A a db => (Normal a, db).
#[global] Instance Async_bind : MBind Async := fun A B f m db =>
  match m db with
  | (Normal a, db') => f a db'
  | (Throw e, db') => (Throw e, db')
  end.

Definition throw {A} (e : JsError) : Async A := fun db => (Throw e, db).

Definition liftC {A} (c : completion A) : Async A := fun db => (c, db).

Definition async_try_catch {A} (body : Async A) (handler : JsError → Async A)
  : Async A :=
  fun db =>
    match body db with
    | (Normal a, db') => (Normal a, db')
    | (Throw e, db') => handler e db'
    end.

Module UserModel.

Definition findOne (id : string) : Async (option (nat * User.t)) :=
  fun db => (Normal (list_find (λ u, User.telegramId u = id) db), db).

Definition saveNew (u : User.t) : Async nat :=
  fun db => (Normal (length db), db ++ [u]).

Definition save (i : nat) (u : User.t) : Async unit :=
  fun db => (Normal tt, <[i := u]> db).

Definition updateMany (n : Z) (d : Z) : Async unit :=
  fun db =>
    (Normal tt,
     (λ u, User.set_lastSpinDate (Some d) (User.set_spinsLeft n u)) <$> db).

End UserModel.

Inductive Body : Type :=
| ErrorBody (error : string)
| NoSpinsBody (error : string) (spinsLeft : Z)
| RewardBody (reward : string) (balance : float) (spinsLeft : Z).

Record Response : Type := json { status : Z; body : Body }.

Record Reward : Type := mkReward { label : string; value : float }.

Definition rewards : list Reward :=
  [ mkReward "0.001 ETH" 0.001;
    mkReward "5 USDT" 5;
    mkReward "Try Again" 0;
    mkReward "0.1 ETH" 0.1 ].

Definition drawIndex (random : Q) : Z :=
  Qfloor (random * inject_Z (Z.of_nat (length rewards))).

Definition drawReward (random : Q) : option Reward :=
  index rewards (drawIndex random).

Section Engine.

Context `{host : Host}.

Definition rolloverDue (today : Z) (user : User.t) : bool :=
  match User.lastSpinDate user with
  | None => true
  | Some last => negb (toDateString last =? toDateString today)
  end.

Definition rollover (today : Z) (user : User.t) : User.t :=
  if rolloverDue today user
  then User.set_lastSpinDate (Some today) (User.set_spinsLeft 3 user)
  else user.

(** Lines 222-226: [reward.value > 0] and [user.balance += reward.value]
    on doubles. *)
Definition applyReward (reward : Reward) (user : User.t) : User.t :=
  if (0 <? value reward)%float
  then User.push_reward (label reward)
         (User.set_balance (User.balance user + value reward)%float user)
  else user.

Definition loadUser (telegramId : string) : Async (nat * User.t) :=
  found ← UserModel.findOne telegramId;
  match found with
  | Some doc => mret doc
  | None =>
      let user := User.new telegramId in
      i ← UserModel.saveNew user;
      mret (i, user)
  end.

Definition spinLoaded (today : Z) (random : Q) (i : nat) (user : User.t)
  : Async Response :=
  let user := rollover today user in
  if User.spinsLeft user <=? 0 then
    mret (json 200 (NoSpinsBody "No spins left today" (User.spinsLeft user)))
  else
    let user := User.set_spinsLeft (User.spinsLeft user - 1) user in
    match drawReward random with
    | None => throw (TypeError "Cannot read properties of undefined")
    | Some reward =>
        let user := applyReward reward user in
        _ ← UserModel.save i user;
        mret (json 200
                (RewardBody (label reward) (User.balance user)
                   (User.spinsLeft user)))
    end.

Definition spinEngine (telegramId : string) (today : Z) (random : Q)
  : Async Response :=
  doc ← loadUser telegramId;
  spinLoaded today random doc.1 doc.2.

Definition route (handler : Async Response)
  : list User.t → Response * list User.t :=
  fun db =>
    match handler db with
    | (Normal r, db') => (r, db')
    | (Throw _, db') => (json 500 (ErrorBody "Internal server error"), db')
    end.

Definition post_api_spin (initData : option string) (today : Z) (random : Q)
  : list User.t → Response * list User.t :=
  route
    (if negb (truthyStr initData) then
       mret (json 400 (ErrorBody "Missing initData"))
     else
       ok ← liftC (verifyTelegram initData);
       if negb ok then mret (json 403 (ErrorBody "Invalid Telegram data"))
       else
         telegramId ← liftC (extractTelegramId (default "" initData));
         if negb (truthyStr telegramId) then
           mret (json 400 (ErrorBody "Cannot determine user id"))
         else spinEngine (default "" telegramId) today random).

Definition resetSpinsForAllUsers (now : Z) : Async unit :=
  async_try_catch (UserModel.updateMany 3 now) (λ err, mret tt).

Definition bot_start (telegramId : string) : Async unit :=
  async_try_catch (_ ← loadUser telegramId; mret tt) (λ err, mret tt).

Definition step (db : list User.t) (op : Op) : list User.t :=
  match op with
  | OpSpin initData today random => (post_api_spin initData today random db).2
  | OpStart telegramId => (bot_start telegramId db).2
  | OpReset now => (resetSpinsForAllUsers now db).2
  end.

Definition run (ops : list Op) (db : list User.t) : list User.t :=
  fold_left step ops db.

(** Calls of one caller served one after the other. *)
Fixpoint spinAll (telegramId : string) (calls : list (Z * Q))
    (db : list User.t) : list Response * list User.t :=
  match calls with
  | [] => ([], db)
  | (today, random) :: rest =>
      let '(r, db1) := route (spinEngine telegramId today random) db in
      let '(rs, db2) := spinAll telegramId rest db1 in
      (r :: rs, db2)
  end.

End Engine.

Definition isGranted (r : Response) : bool :=
  match body r with RewardBody _ _ _ => true | _ => false end.

Definition isNoSpinsLeft (r : Response) : bool :=
  match body r with NoSpinsBody _ _ => true | _ => false end.

(** The value that goes with a label of the table. *)
Definition valueOfLabel (l : string) : float :=
  match List.find (λ r, String.eqb (label r) l) rewards with
  | Some r => value r
  | None => 0%float
  end.

(** The values that the granted answers made the handler add to the
    balance, in the order of the answers: those above zero. *)
Definition addedValues (rs : list Response) : list float :=
  omap (λ r,
          match body r with
          | RewardBody l _ _ =>
              if (0 <? valueOfLabel l)%float then Some (valueOfLabel l)
              else None
          | _ => None
          end) rs.

(** [b + v1 + v2 + ...], each sum rounded as the machine rounds it. *)
Definition addAll (b : float) (vs : list float) : float :=
  fold_left PrimFloat.add vs b.

(** The balance is what adding the values of the history to 0, oldest
    first, gives. *)
Definition ledgerOk (u : User.t) : Prop :=
  User.balance u = addAll 0%float (valueOfLabel <$> User.rewards u).

End Double.

(** ** The two engines side by side *)

(** A document with an exact balance and one with a double balance that
    are alike in every other field. *)
Definition sameButBalance (u : User.t) (d : Double.User.t) : Prop :=
  User.telegramId u = Double.User.telegramId d
  ∧ User.spinsLeft u = Double.User.spinsLeft d
  ∧ User.rewards u = Double.User.rewards d
  ∧ User.lastSpinDate u = Double.User.lastSpinDate d.

(** Two answers that are alike but for the balance they report. *)
Definition sameAnswer (r : Response) (d : Double.Response) : Prop :=
  status r = Double.status d
  ∧ match body r, Double.body d with
    | ErrorBody e, Double.ErrorBody e' => e = e'
    | NoSpinsBody e n, Double.NoSpinsBody e' n' => e = e' ∧ n = n'
    | RewardBody l _ n, Double.RewardBody l' _ n' => l = l' ∧ n = n'
    | _, _ => False
    end.

(** Two entries of the reward tables with one label, both above zero or
    both not. *)
Definition sameReward (r : Reward) (d : Double.Reward) : Prop :=
  label r = Double.label d
  ∧ ((0 < value r)%Q ↔ (0 <? Double.value d)%float = true).

(** * Properties *)

(** ** Running the definitions *)

Example parse_example :
  URLSearchParams.new "user=%7Bx%7D&id=4+2&hash=ab&flag" =
    [("user", "{x}"); ("id", "4 2"); ("hash", "ab"); ("flag", "")].
Proof. reflexivity. Qed.

Example dataCheckString_example :
  dataCheckString [("b", "2"); ("a", "1"); ("a", "0")] =
    "a=0" +:+ LF +:+ "a=1" +:+ LF +:+ "b=2".
Proof. reflexivity. Qed.

Example signed_payload_spins :
  @post_api_spin utcHost
    (Some "id=42&hash=hmac(sha256(123:secret),id=42)") 0 0%Q [] =
  (json 200 (RewardBody "0.001 ETH" (1 # 1000) 2),
   [User.mk "42" 2 ["0.001 ETH"] (1 # 1000) (Some 0)]).
Proof. reflexivity. Qed.

Section Properties.

Context `{host : Host}.

(** *** The pieces of the spin route, case by case *)

Lemma loadUser_eq telegramId (db : Store) :
  loadUser telegramId db =
    match list_find (λ u, User.telegramId u = telegramId) db with
    | Some doc => (Normal doc, db)
    | None =>
        (Normal (length db, User.new telegramId),
         db ++ [User.new telegramId])
    end.
Proof.
  unfold loadUser, mbind, Async_bind, UserModel.findOne. simpl.
  destruct (list_find _ db); reflexivity.
Qed.

Lemma spinLoaded_eq today random i user (db : Store) :
  spinLoaded today random i user db =
    let u1 := rollover today user in
    if User.spinsLeft u1 <=? 0 then
      (Normal (json 200 (NoSpinsBody "No spins left today" (User.spinsLeft u1))),
       db)
    else
      match drawReward random with
      | None => (Throw (TypeError "Cannot read properties of undefined"), db)
      | Some reward =>
          let u2 :=
            applyReward reward
              (User.set_spinsLeft (User.spinsLeft u1 - 1) u1) in
          (Normal (json 200
                     (RewardBody (label reward) (User.balance u2)
                        (User.spinsLeft u2))),
           <[i := u2]> db)
      end.
Proof.
  unfold spinLoaded. cbv zeta.
  destruct (User.spinsLeft (rollover today user) <=? 0); [reflexivity|].
  destruct (drawReward random); reflexivity.
Qed.

Lemma spinEngine_eq telegramId today random (db : Store) :
  spinEngine telegramId today random db =
    match loadUser telegramId db with
    | (Normal doc, db1) => spinLoaded today random doc.1 doc.2 db1
    | (Throw e, db1) => (Throw e, db1)
    end.
Proof. reflexivity. Qed.

Lemma rollover_fired today user :
  rolloverDue today user = true →
  User.spinsLeft (rollover today user) = 3 ∧
  User.lastSpinDate (rollover today user) = Some today.
Proof. unfold rollover. intros ->. split; reflexivity. Qed.

Lemma rollover_not_due today user :
  rolloverDue today user = false → rollover today user = user.
Proof. unfold rollover. intros ->. reflexivity. Qed.

(** The rollover looks at the date in the local time of the host. *)
Lemma rolloverDue_local today user :
  rolloverDue today user = true ↔
  User.lastSpinDate user = None ∨
  ∃ last, User.lastSpinDate user = Some last ∧
          Day (last + LocalTZA last) ≠ Day (today + LocalTZA today).
Proof.
  unfold rolloverDue, toDateString.
  destruct (User.lastSpinDate user) as [last|].
  - rewrite negb_true_iff, Z.eqb_neq. split.
    + intros Hne. right. exists last. split; [reflexivity | exact Hne].
    + intros [Hnone | (last' & Hlast & Hne)]; [discriminate | congruence].
  - split; [intros _; left; reflexivity | reflexivity].
Qed.

Lemma applyReward_spinsLeft reward user :
  User.spinsLeft (applyReward reward user) = User.spinsLeft user.
Proof. unfold applyReward. destruct (Qlt_le_dec _ _); reflexivity. Qed.

Lemma applyReward_balance reward user :
  (User.balance user <= User.balance (applyReward reward user))%Q.
Proof.
  unfold applyReward. destruct (Qlt_le_dec _ _); simpl; lra.
Qed.

(** On a host whose local time is UTC the local date is the UTC date, and
    a spin that finds the last spin on an earlier UTC date, or none, is
    served from a full allotment. *)
Lemma rollover_on_utc_host today user :
  (∀ t, LocalTZA t = 0) →
  User.lastSpinDate user = None ∨
  (∃ last, User.lastSpinDate user = Some last ∧ Day last ≠ Day today) →
  rollover today user =
    User.set_lastSpinDate (Some today) (User.set_spinsLeft 3 user).
Proof.
  intros Hutc Hdate. unfold rollover.
  assert (rolloverDue today user = true) as ->; [|reflexivity].
  apply rolloverDue_local.
  destruct Hdate as [Hnone | (last & Hlast & Hne)]; [left; exact Hnone|].
  right. exists last. split; [exact Hlast|].
  rewrite !Hutc, !Z.add_0_r. exact Hne.
Qed.

(** *** The quota check *)

(** C2. A spin that finds no spin left after the rollover check answers
    "No spins left today" with the count it found, status 200, and leaves
    the collection as it was; the rollover did not fire, so the document in
    hand is the stored one too. *)
Theorem no_spins_left_leaves_account telegramId today random (db : Store)
    i user :
  list_find (λ u, User.telegramId u = telegramId) db = Some (i, user) →
  User.spinsLeft (rollover today user) ≤ 0 →
  route (spinEngine telegramId today random) db =
    (json 200 (NoSpinsBody "No spins left today" (User.spinsLeft user)), db)
  ∧ rollover today user = user
  ∧ db !! i = Some user.
Proof.
  intros Hfind Hquota.
  assert (rollover today user = user) as Hsame.
  { destruct (rolloverDue today user) eqn:Hdue.
    - apply rollover_fired in Hdue as [H3 _]. lia.
    - by apply rollover_not_due. }
  split; [|split; [exact Hsame|]].
  - unfold route. rewrite spinEngine_eq, loadUser_eq, Hfind. simpl.
    rewrite spinLoaded_eq. cbv zeta. rewrite Hsame in *.
    apply Z.leb_le in Hquota. rewrite Hquota. reflexivity.
  - apply list_find_Some in Hfind. tauto.
Qed.

(** A caller without a document is never out of spins: the new document
    starts from the full allotment. *)
Lemma new_account_has_spins telegramId today :
  User.spinsLeft (rollover today (User.new telegramId)) = 3.
Proof. reflexivity. Qed.

End Properties.

(** C2, on a collection of two accounts. *)
Lemma no_spins_left_leaves_account_witness :
  let db := [User.mk "u1" 2 [] 0 (Some 0); User.mk "u2" 0 [] 5 (Some 1000)] in
  route (@spinEngine utcHost "u2" 2000 (1 # 2)) db =
    (json 200 (NoSpinsBody "No spins left today" 0), db)
  ∧ @rollover utcHost 2000 (User.mk "u2" 0 [] 5 (Some 1000)) =
      User.mk "u2" 0 [] 5 (Some 1000)
  ∧ db !! 1%nat = Some (User.mk "u2" 0 [] 5 (Some 1000)).
Proof.
  apply (@no_spins_left_leaves_account utcHost "u2" 2000 (1 # 2)
           [User.mk "u1" 2 [] 0 (Some 0); User.mk "u2" 0 [] 5 (Some 1000)]
           1%nat (User.mk "u2" 0 [] 5 (Some 1000))).
  - reflexivity.
  - vm_compute. discriminate.
Defined.

(** *** The rollover and the date *)

(** C1. On a host one hour ahead of UTC, an account that last spun at
    23:30 UTC on 1 January 2024 and has no spin left calls at 00:10 UTC on
    2 January: the UTC date has changed, the local date has not, the
    rollover does not fire and the call is answered "No spins left today". *)
Theorem rollover_missed_across_utc_midnight :
  let last := 1704151800000 in
  let today := 1704154200000 in
  let account := User.mk "u3" 0 [] 0 (Some last) in
  Day last ≠ Day today
  ∧ @rolloverDue cetHost today account = false
  ∧ route (@spinEngine cetHost "u3" today (1 # 2)) [account] =
      (json 200 (NoSpinsBody "No spins left today" 0), [account]).
Proof.
  cbv zeta. split; [|split].
  - vm_compute. discriminate.
  - vm_compute. reflexivity.
  - vm_compute. reflexivity.
Qed.

(** The other way round on the same host: last spin at 22:30 UTC, call at
    23:10 UTC of the same UTC date; the local date has changed and the
    rollover hands out a full allotment again. *)
Example rollover_early_before_utc_midnight :
  let last := 1704148200000 in
  let today := 1704150600000 in
  let account := User.mk "u3" 0 [] 0 (Some last) in
  Day last = Day today
  ∧ route (@spinEngine cetHost "u3" today (1 # 2)) [account] =
      (json 200 (RewardBody "Try Again" 0 2),
       [User.mk "u3" 2 [] 0 (Some today)]).
Proof. cbv zeta. split; vm_compute; reflexivity. Qed.

(** The scenario of the specification on a host in UTC. *)
Example rollover_scenario_on_utc_host :
  let account := User.mk "u3" 0 [] 0 (Some 1704151800000) in
  route (@spinEngine utcHost "u3" 1704154200000 (1 # 2)) [account] =
    (json 200 (RewardBody "Try Again" 0 2),
     [User.mk "u3" 2 [] 0 (Some 1704154200000)]).
Proof. vm_compute. reflexivity. Qed.

(** *** What a spin does to the collection *)

Section Quota.

Context `{host : Host}.

Lemma loadUser_cases telegramId (db : Store) :
  ∃ j user db1,
    loadUser telegramId db = (Normal (j, user), db1)
    ∧ db1 !! j = Some user
    ∧ (db1 = db
       ∨ (db1 = db ++ [User.new telegramId] ∧ j = length db
          ∧ user = User.new telegramId)).
Proof.
  rewrite loadUser_eq.
  destruct (list_find _ db) as [[j user]|] eqn:Hfind.
  - exists j, user, db. split; [reflexivity|]. split; [|by left].
    apply list_find_Some in Hfind. tauto.
  - exists (length db), (User.new telegramId), (db ++ [User.new telegramId]).
    split; [reflexivity|]. split; [|by right].
    rewrite lookup_app_r by lia. by rewrite Nat.sub_diag.
Qed.

(** The three ways lines 203-230 can end. *)
Lemma spinLoaded_cases today random j user (db : Store) :
  let u1 := rollover today user in
  (User.spinsLeft u1 ≤ 0
   ∧ route (spinLoaded today random j user) db =
       (json 200 (NoSpinsBody "No spins left today" (User.spinsLeft u1)), db))
  ∨ (0 < User.spinsLeft u1 ∧ drawReward random = None
     ∧ route (spinLoaded today random j user) db = (internalError, db))
  ∨ (∃ reward,
       0 < User.spinsLeft u1 ∧ drawReward random = Some reward
       ∧ let u2 :=
           applyReward reward
             (User.set_spinsLeft (User.spinsLeft u1 - 1) u1) in
         route (spinLoaded today random j user) db =
           (json 200
              (RewardBody (label reward) (User.balance u2)
                 (User.spinsLeft u2)),
            <[j := u2]> db)).
Proof.
  cbv zeta. unfold route. rewrite spinLoaded_eq. cbv zeta.
  destruct (Z.leb_spec (User.spinsLeft (rollover today user)) 0) as [Hle|Hgt].
  - left. split; [exact Hle | reflexivity].
  - right. destruct (drawReward random) as [reward|].
    + right. exists reward. split; [exact Hgt|]. split; reflexivity.
    + left. split; [exact Hgt|]. split; reflexivity.
Qed.

(** The route either stops before the engine, with the collection
    untouched, or is the engine for the identity it extracted. *)
Lemma post_api_spin_cases initData today random (db : Store) :
  (isGranted (post_api_spin initData today random db).1 = false
   ∧ (post_api_spin initData today random db).2 = db)
  ∨ ∃ telegramId,
      post_api_spin initData today random db =
        route (spinEngine telegramId today random) db.
Proof.
  unfold post_api_spin.
  destruct (negb (truthyStr initData)); [left; split; reflexivity|].
  unfold route, mbind, Async_bind, liftC.
  destruct (verifyTelegram initData) as [ok|e]; [|left; split; reflexivity].
  destruct ok; simpl; [|left; split; reflexivity].
  destruct (extractTelegramId (default "" initData)) as [tid|e];
    [|left; split; reflexivity].
  destruct (negb (truthyStr tid)); [left; split; reflexivity|].
  right. exists (default "" tid). reflexivity.
Qed.

Lemma spinEngine_cases telegramId today random (db : Store) :
  ∃ j user db1,
    loadUser telegramId db = (Normal (j, user), db1)
    ∧ db1 !! j = Some user
    ∧ (db1 = db
       ∨ (db1 = db ++ [User.new telegramId] ∧ j = length db
          ∧ user = User.new telegramId))
    ∧ route (spinEngine telegramId today random) db =
        route (spinLoaded today random j user) db1.
Proof.
  destruct (loadUser_cases telegramId db) as (j & user & db1 & Hload & Hj & Hdb1).
  exists j, user, db1. repeat split; try assumption.
  unfold route. rewrite spinEngine_eq, Hload. reflexivity.
Qed.

Lemma loaded_keeps_accounts telegramId (db db1 : Store) j user i u :
  db1 = db ∨ (db1 = db ++ [User.new telegramId] ∧ j = length db
              ∧ user = User.new telegramId) →
  db !! i = Some u → db1 !! i = Some u.
Proof.
  intros [-> | (-> & _ & _)] Hi; [exact Hi|].
  by apply lookup_app_l_Some.
Qed.


(** *** The quota over runs of the server *)

Lemma rollover_quota today user :
  0 ≤ User.spinsLeft user ≤ 3 → 0 ≤ User.spinsLeft (rollover today user) ≤ 3.
Proof. unfold rollover. destruct (rolloverDue today user); simpl; lia. Qed.

Lemma loadUser_quotaOk telegramId (db db1 : Store) j user :
  loadUser telegramId db = (Normal (j, user), db1) → quotaOk db → quotaOk db1.
Proof.
  rewrite loadUser_eq. unfold quotaOk.
  destruct (list_find _ db) as [doc|]; intros Heq Hdb; simplify_eq; [done|].
  apply Forall_app. split; [exact Hdb|].
  apply Forall_singleton. simpl. lia.
Qed.

Lemma spinEngine_quotaOk telegramId today random (db : Store) :
  quotaOk db → quotaOk (route (spinEngine telegramId today random) db).2.
Proof.
  intros Hdb.
  destruct (spinEngine_cases telegramId today random db)
    as (j & user & db1 & Hload & Hj & _ & ->).
  apply (loadUser_quotaOk _ _ _ _ _ Hload) in Hdb.
  assert (0 ≤ User.spinsLeft (rollover today user) ≤ 3) as Hu.
  { apply rollover_quota. unfold quotaOk in Hdb.
    rewrite Forall_lookup in Hdb. by apply (Hdb j). }
  destruct (spinLoaded_cases today random j user db1)
    as [[_ ->] | [(_ & _ & ->) | (reward & Hgt & _ & Hrun)]]; [done..|].
  cbv zeta in Hrun. rewrite Hrun. simpl.
  apply Forall_insert; [exact Hdb|].
  rewrite applyReward_spinsLeft. simpl. lia.
Qed.

Lemma step_quotaOk (db : Store) op : quotaOk db → quotaOk (step db op).
Proof.
  intros Hdb. destruct op as [initData today random | telegramId | now]; simpl.
  - destruct (post_api_spin_cases initData today random db)
      as [[_ ->] | [telegramId ->]]; [exact Hdb|].
    by apply spinEngine_quotaOk.
  - unfold bot_start, async_try_catch, mbind, Async_bind.
    destruct (loadUser_cases telegramId db) as (j & user & db1 & Hload & _).
    rewrite Hload. simpl. by eapply loadUser_quotaOk.
  - unfold quotaOk. apply Forall_fmap, Forall_true. intros u. simpl. lia.
Qed.

Lemma run_quotaOk ops (db : Store) : quotaOk db → quotaOk (run ops db).
Proof.
  revert db. induction ops as [|op ops IH]; intros db Hdb; [exact Hdb|].
  simpl. apply IH. by apply step_quotaOk.
Qed.

Lemma reset_sets_allotment (db : Store) now :
  Forall (λ u, User.spinsLeft u = 3) (step db (OpReset now)).
Proof. simpl. apply Forall_fmap, Forall_true. intros u. reflexivity. Qed.

(** What one operation can do to the [spinsLeft] of a stored account. *)
Lemma step_spinsLeft (db : Store) op i u u' :
  db !! i = Some u → step db op !! i = Some u' →
  User.spinsLeft u' = User.spinsLeft u
  ∨ (∃ initData today random,
       op = OpSpin initData today random
       ∧ isGranted (post_api_spin initData today random db).1 = true
       ∧ User.spinsLeft u' = User.spinsLeft (rollover today u) - 1)
  ∨ (∃ now, op = OpReset now ∧ User.spinsLeft u' = 3).
Proof.
  intros Hi Hi'. destruct op as [initData today random | telegramId | now];
    simpl in Hi'.
  - destruct (post_api_spin_cases initData today random db)
      as [[_ Hsame] | [telegramId Hrun]].
    { left. rewrite Hsame in Hi'. congruence. }
    rewrite Hrun in Hi'.
    destruct (spinEngine_cases telegramId today random db)
      as (j & user & db1 & _ & Hj & Hdb1 & Heng).
    rewrite Heng in Hi'.
    pose proof (loaded_keeps_accounts _ _ _ _ _ _ _ Hdb1 Hi) as Hi1.
    destruct (spinLoaded_cases today random j user db1)
      as [[_ Hr] | [(_ & _ & Hr) | (reward & _ & _ & Hr)]].
    + left. rewrite Hr in Hi'. simpl in Hi'. congruence.
    + left. rewrite Hr in Hi'. simpl in Hi'. congruence.
    + cbv zeta in Hr. rewrite Hr in Hi'. simpl in Hi'.
      destruct (decide (i = j)) as [-> | Hne].
      * right. left. exists initData, today, random.
        split; [reflexivity|]. split; [by rewrite Hrun, Heng, Hr|].
        rewrite list_lookup_insert_eq in Hi' by by eapply lookup_lt_Some.
        injection Hi' as <-. rewrite applyReward_spinsLeft. simpl. congruence.
      * left. rewrite list_lookup_insert_ne in Hi' by done. congruence.
  - left. revert Hi'.
    unfold bot_start, async_try_catch, mbind, Async_bind.
    destruct (loadUser_cases telegramId db)
      as (j & user & db1 & Hload & _ & Hdb1).
    rewrite Hload. simpl. intros Hi'.
    pose proof (loaded_keeps_accounts _ _ _ _ _ _ _ Hdb1 Hi). congruence.
  - right. right. exists now. split; [reflexivity|].
    rewrite list_lookup_fmap, Hi in Hi'. by injection Hi' as <-.
Qed.

(** C3. From a collection in which every account has between 0 and 3 spins
    left, every run of spins, [/start] commands and resets leads to such a
    collection; a reset leaves 3 everywhere and a rollover that fires leaves
    3; an operation leaves the [spinsLeft] of a stored account as it is,
    or is a granted spin that makes it one less than the value after the
    rollover check, or is the reset; and a granted spin stores, for its
    caller, one less than the value after the rollover check. *)
Theorem spinsLeft_stays_within_allotment ops (db : Store) :
  quotaOk db →
  quotaOk (run ops db)
  ∧ (∀ now, Forall (λ u, User.spinsLeft u = 3) (step (run ops db) (OpReset now)))
  ∧ (∀ today user,
       rolloverDue today user = true → User.spinsLeft (rollover today user) = 3)
  ∧ (∀ op i u u',
       run ops db !! i = Some u → step (run ops db) op !! i = Some u' →
       User.spinsLeft u' = User.spinsLeft u
       ∨ (∃ initData today random,
            op = OpSpin initData today random
            ∧ isGranted (post_api_spin initData today random (run ops db)).1
              = true
            ∧ User.spinsLeft u' = User.spinsLeft (rollover today u) - 1)
       ∨ (∃ now, op = OpReset now ∧ User.spinsLeft u' = 3))
  ∧ (∀ telegramId today random,
       isGranted (route (spinEngine telegramId today random) (run ops db)).1
         = true →
       ∃ j user db1 u',
         loadUser telegramId (run ops db) = (Normal (j, user), db1)
         ∧ (route (spinEngine telegramId today random) (run ops db)).2 !! j
           = Some u'
         ∧ User.spinsLeft u' = User.spinsLeft (rollover today user) - 1
         ∧ 0 ≤ User.spinsLeft u').
Proof.
  intros Hdb. split; [by apply run_quotaOk|].
  split; [intros now; apply reset_sets_allotment|].
  split; [intros today user Hdue; by apply rollover_fired|].
  split; [intros op i u u'; apply step_spinsLeft|].
  intros telegramId today random.
  destruct (spinEngine_cases telegramId today random (run ops db))
    as (j & user & db1 & Hload & Hj & _ & ->).
  destruct (spinLoaded_cases today random j user db1)
    as [[_ ->] | [(_ & _ & ->) | (reward & Hgt & _ & Hr)]]; [done..|].
  cbv zeta in Hr. rewrite Hr. simpl. intros _.
  eexists j, user, db1, _. split; [exact Hload|].
  split; [apply list_lookup_insert_eq; by eapply lookup_lt_Some|].
  rewrite applyReward_spinsLeft. simpl. lia.
Qed.

End Quota.

(** C3, on a run that starts from the empty collection. *)
Lemma spinsLeft_stays_within_allotment_witness :
  quotaOk []
  ∧ quotaOk
      (@run utcHost
         [OpStart "7"; OpSpin (Some "id=42&hash=hmac(sha256(123:secret),id=42)")
                         0 (1 # 2); OpReset 5000] []).
Proof.
  assert (quotaOk []) as Hempty by apply Forall_nil_2.
  split; [exact Hempty|].
  exact (proj1 (@spinsLeft_stays_within_allotment utcHost
                  [OpStart "7";
                   OpSpin (Some "id=42&hash=hmac(sha256(123:secret),id=42)")
                     0 (1 # 2); OpReset 5000] [] Hempty)).
Defined.

(** ** Verification of the payload *)

Section Verification.

Context `{host : Host}.

Lemma truthyStr_Some s : s ≠ "" → truthyStr (Some s) = true.
Proof.
  intros Hs. unfold truthyStr. apply negb_true_iff, String.eqb_neq, Hs.
Qed.

Lemma verifyParsed_no_hash parsed :
  truthyStr (URLSearchParams.get "hash" parsed) = false →
  verifyParsed parsed = Normal false.
Proof. unfold verifyParsed. intros ->. reflexivity. Qed.

Lemma verifyTelegram_no_hash s :
  truthyStr (URLSearchParams.get "hash" (URLSearchParams.new s)) = false →
  verifyTelegram (Some s) = Normal false.
Proof.
  intros Hhash. unfold verifyTelegram.
  destruct (negb (truthyStr (Some s))); [reflexivity|].
  change (default "" (Some s)) with s.
  by rewrite verifyParsed_no_hash.
Qed.

(** C8. [verifyTelegram] returns a boolean for every payload, present or
    not, and never throws: a missing or empty payload, a payload without a
    hash or with an empty one, and a failure of a [crypto] call are all
    answered [false]. *)
Theorem verifyTelegram_never_throws initData :
  (∃ ok, verifyTelegram initData = Normal ok)
  ∧ (truthyStr initData = false → verifyTelegram initData = Normal false)
  ∧ (∀ s, initData = Some s →
       truthyStr (URLSearchParams.get "hash" (URLSearchParams.new s)) = false →
       verifyTelegram initData = Normal false)
  ∧ (∀ e, verifyParsed (URLSearchParams.new (default "" initData)) = Throw e →
       verifyTelegram initData = Normal false).
Proof.
  unfold verifyTelegram. repeat split.
  - destruct (negb (truthyStr initData)); [by exists false|].
    destruct (verifyParsed _) as [ok|e]; simpl; [by exists ok | by exists false].
  - intros ->. reflexivity.
  - intros s -> Hhash. by apply verifyTelegram_no_hash.
  - intros e Hthrow.
    destruct (negb (truthyStr initData)); [reflexivity|].
    by rewrite Hthrow.
Qed.

(** A [crypto] call that throws is caught. *)
Lemma verifyParsed_digest_throws parsed e :
  truthyStr (URLSearchParams.get "hash" parsed) = true →
  createHash_sha256 (default "" (orElse BOT_TOKEN (Some ""))) = Throw e →
  verifyParsed parsed = Throw e.
Proof. unfold verifyParsed. intros -> ->. reflexivity. Qed.

(** The route answers 400 only when there is no payload at all. *)
Lemma post_api_spin_missing initData today random (db : Store) :
  truthyStr initData = false →
  post_api_spin initData today random db =
    (json 400 (ErrorBody "Missing initData"), db).
Proof. unfold post_api_spin. intros ->. reflexivity. Qed.

Lemma post_api_spin_rejected initData today random (db : Store) :
  truthyStr initData = true → verifyTelegram initData = Normal false →
  post_api_spin initData today random db =
    (json 403 (ErrorBody "Invalid Telegram data"), db).
Proof.
  unfold post_api_spin, route, mbind, Async_bind, liftC.
  intros -> ->. reflexivity.
Qed.

(** C5, as the code has it. A payload that is not empty and has no hash
    field makes [verifyTelegram] answer [false], the answer it also gives
    for a wrong signature, and the route responds 403 "Invalid Telegram
    data" without touching the collection. *)
Theorem missing_hash_is_rejected_as_invalid s today random (db : Store) :
  s ≠ "" →
  URLSearchParams.get "hash" (URLSearchParams.new s) = None →
  verifyTelegram (Some s) = Normal false
  ∧ post_api_spin (Some s) today random db =
      (json 403 (ErrorBody "Invalid Telegram data"), db).
Proof.
  intros Hs Hhash.
  assert (verifyTelegram (Some s) = Normal false) as Hverify.
  { apply verifyTelegram_no_hash. by rewrite Hhash. }
  split; [exact Hverify|].
  apply post_api_spin_rejected; [by apply truthyStr_Some | exact Hverify].
Qed.

End Verification.

(** C5 on a payload with an id and no hash. *)
Lemma missing_hash_is_rejected_as_invalid_witness :
  "id=42" ≠ ""
  ∧ URLSearchParams.get "hash" (URLSearchParams.new "id=42") = None
  ∧ @verifyTelegram utcHost (Some "id=42") = Normal false
  ∧ @post_api_spin utcHost (Some "id=42") 0 0%Q [] =
      (json 403 (ErrorBody "Invalid Telegram data"), []).
Proof.
  assert ("id=42" ≠ "") as Hs by discriminate.
  assert (URLSearchParams.get "hash" (URLSearchParams.new "id=42") = None)
    as Hhash by reflexivity.
  split; [exact Hs|]. split; [exact Hhash|].
  exact (@missing_hash_is_rejected_as_invalid utcHost "id=42" 0 0%Q [] Hs Hhash).
Defined.

(** C5 as the specification words it fails: the payload has no hash field
    and the status is 403, not 400. *)
Lemma missing_hash_is_not_answered_400 :
  URLSearchParams.get "hash" (URLSearchParams.new "id=42") = None
  ∧ status (@post_api_spin utcHost (Some "id=42") 0 0%Q []).1 = 403
  ∧ status (@post_api_spin utcHost (Some "id=42") 0 0%Q []).1 ≠ 400.
Proof. split; [reflexivity|]. split; [reflexivity|]. vm_compute. discriminate. Qed.

(** *** The check-string and the order of the fields *)

(** Whatever algorithm [Array.prototype.sort] runs, a list of strings has
    one sorted arrangement, and [merge_sort] gives it. *)
Lemma sorted_arrangement_unique (l l' : list string) :
  Sorted String.le l' → l' ≡ₚ l → l' = merge_sort String.le l.
Proof.
  intros Hsorted Hperm. apply (Sorted_unique String.le).
  - exact Hsorted.
  - apply Sorted_merge_sort; apply _.
  - by rewrite merge_sort_Permutation.
Qed.

Lemma merge_sort_of_permutation (l1 l2 : list string) :
  l1 ≡ₚ l2 → merge_sort String.le l1 = merge_sort String.le l2.
Proof.
  intros Hperm. apply sorted_arrangement_unique.
  - apply Sorted_merge_sort; apply _.
  - by rewrite merge_sort_Permutation.
Qed.

Lemma delete_of_permutation name (l1 l2 : list URLSearchParams.Entry) :
  l1 ≡ₚ l2 → URLSearchParams.delete name l1 ≡ₚ URLSearchParams.delete name l2.
Proof. intros Hperm. unfold URLSearchParams.delete. by rewrite Hperm. Qed.

Lemma dataCheckString_of_permutation (l1 l2 : list URLSearchParams.Entry) :
  l1 ≡ₚ l2 → dataCheckString l1 = dataCheckString l2.
Proof.
  intros Hperm. unfold dataCheckString. f_equal.
  apply merge_sort_of_permutation. by apply Permutation_map.
Qed.

Section FieldOrder.

Context `{host : Host}.

Lemma verifyParsed_of_permutation (l1 l2 : list URLSearchParams.Entry) :
  l1 ≡ₚ l2 →
  URLSearchParams.get "hash" l1 = URLSearchParams.get "hash" l2 →
  verifyParsed l1 = verifyParsed l2
  ∧ Legacy.verifyParsed l1 = Legacy.verifyParsed l2.
Proof.
  intros Hperm Hhash. unfold verifyParsed, Legacy.verifyParsed.
  rewrite Hhash.
  rewrite (dataCheckString_of_permutation _ _
             (delete_of_permutation "hash" _ _ Hperm)).
  split; reflexivity.
Qed.

(** C6. Two payloads whose fields are the same up to their order, with the
    same hash read from both, have the same check-string and get the same
    answer from [verifyTelegram], in the current file and in the older
    one. *)
Theorem verification_ignores_field_order (s1 s2 : string) :
  URLSearchParams.new s1 ≡ₚ URLSearchParams.new s2 →
  URLSearchParams.get "hash" (URLSearchParams.new s1) =
    URLSearchParams.get "hash" (URLSearchParams.new s2) →
  dataCheckString (URLSearchParams.delete "hash" (URLSearchParams.new s1)) =
    dataCheckString (URLSearchParams.delete "hash" (URLSearchParams.new s2))
  ∧ verifyTelegram (Some s1) = verifyTelegram (Some s2)
  ∧ Legacy.verifyTelegram (Some s1) = Legacy.verifyTelegram (Some s2).
Proof.
  intros Hperm Hhash.
  destruct (verifyParsed_of_permutation _ _ Hperm Hhash) as [Hnew Hold].
  split; [by apply dataCheckString_of_permutation, delete_of_permutation|].
  split; [|exact Hold].
  unfold verifyTelegram. change (default "" (Some ?s)) with s.
  destruct (negb (truthyStr (Some s1))) eqn:H1,
           (negb (truthyStr (Some s2))) eqn:H2;
    rewrite <- ?Hnew; try reflexivity.
  - rewrite verifyParsed_no_hash; [reflexivity|].
    apply negb_true_iff in H1. simpl in H1.
    apply negb_false_iff, String.eqb_eq in H1. subst s1. reflexivity.
  - rewrite verifyParsed_no_hash; [reflexivity|].
    apply negb_true_iff in H2. simpl in H2.
    apply negb_false_iff, String.eqb_eq in H2. subst s2.
    by rewrite Hhash.
Qed.

End FieldOrder.

(** C6 on a payload and the same fields in the reverse order. *)
Lemma verification_ignores_field_order_witness :
  @verifyTelegram utcHost (Some "b=2&a=1&hash=h") =
    @verifyTelegram utcHost (Some "hash=h&a=1&b=2").
Proof.
  refine (proj1 (proj2 (@verification_ignores_field_order utcHost
                          "b=2&a=1&hash=h" "hash=h&a=1&b=2" _ _))).
  - change (URLSearchParams.new "b=2&a=1&hash=h")
      with (reverse (URLSearchParams.new "hash=h&a=1&b=2")).
    apply reverse_Permutation.
  - reflexivity.
Defined.

(** ** The identity of the caller *)

Section Identity.

Context `{host : Host}.

Ltac run_completion :=
  unfold mbind, completion_bind, mret, completion_ret, try_catch; simpl.

(** [extractTelegramId] returns, whatever the payload. *)
Lemma extractTelegramId_returns initData :
  ∃ id, extractTelegramId initData = Normal id.
Proof.
  unfold extractTelegramId.
  destruct (mbind _ _) as [id|e]; simpl; [by exists id | by exists None].
Qed.

(** Without a [user] field the flat keys are read. *)
Lemma extractTelegramId_flat initData :
  truthyStr (URLSearchParams.get "user" (URLSearchParams.new initData)) = false →
  extractTelegramId initData =
    Normal
      (let id :=
         orElse
           (orElse (URLSearchParams.get "id" (URLSearchParams.new initData))
              (URLSearchParams.get "user_id" (URLSearchParams.new initData)))
           (URLSearchParams.get "user_id" (URLSearchParams.new initData)) in
       if truthyStr id then id else None).
Proof.
  intros Huser. unfold extractTelegramId, idFromUser. cbv zeta.
  rewrite Huser. run_completion.
  destruct (truthyStr (orElse _ _)); reflexivity.
Qed.

(** A [user] field that parses to an object with a truthy [id] gives that
    id. *)
Lemma extractTelegramId_user initData userStr userObj id s :
  URLSearchParams.get "user" (URLSearchParams.new initData) = Some userStr →
  userStr ≠ "" →
  JSON_parse userStr = Normal userObj →
  truthy userObj = true → getProp userObj "id" = Some id →
  truthy id = true → toString id = Normal s →
  extractTelegramId initData = Normal (Some s).
Proof.
  intros Huser Hne Hparse Hobj Hid Htruthy Hstr.
  unfold extractTelegramId, idFromUser. cbv zeta.
  rewrite Huser, (truthyStr_Some _ Hne). simpl.
  rewrite Hparse. run_completion. rewrite Hobj, Hid, Htruthy, Hstr.
  reflexivity.
Qed.

(** A [user] field that parses to a value without a truthy [id] hands over
    to the flat keys. *)
Lemma extractTelegramId_user_without_id initData userStr userObj flat :
  URLSearchParams.get "user" (URLSearchParams.new initData) = Some userStr →
  JSON_parse userStr = Normal userObj →
  (truthy userObj = false ∨ getProp userObj "id" = None) →
  URLSearchParams.get "id" (URLSearchParams.new initData) = Some flat →
  flat ≠ "" →
  extractTelegramId initData = Normal (Some flat).
Proof.
  intros Huser Hparse Hnoid Hflat Hne.
  unfold extractTelegramId, idFromUser. cbv zeta.
  apply String.eqb_neq in Hne.
  rewrite Huser, Hflat. unfold orElse.
  destruct (truthyStr (Some userStr)); run_completion;
    [|repeat (rewrite Hne; simpl); reflexivity].
  rewrite Hparse.
  destruct Hnoid as [-> | Hnone];
    [repeat (rewrite Hne; simpl); reflexivity|].
  destruct (truthy userObj); rewrite ?Hnone;
    repeat (rewrite Hne; simpl); reflexivity.
Qed.

(** C7. When the [user] field is there and [JSON.parse] throws on it, the
    throw leaves the function through its [catch]: the answer is [null]
    although the payload has a flat id field, and the route, for a payload
    that passed verification, responds 400 "Cannot determine user id". *)
Theorem unparseable_user_hides_flat_id initData userStr flat e :
  URLSearchParams.get "user" (URLSearchParams.new initData) = Some userStr →
  userStr ≠ "" →
  JSON_parse userStr = Throw e →
  URLSearchParams.get "id" (URLSearchParams.new initData) = Some flat →
  flat ≠ "" →
  extractTelegramId initData = Normal None
  ∧ ∀ today random (db : Store),
      verifyTelegram (Some initData) = Normal true →
      post_api_spin (Some initData) today random db =
        (json 400 (ErrorBody "Cannot determine user id"), db).
Proof.
  intros Huser Hne Hparse Hflat Hflatne.
  assert (extractTelegramId initData = Normal None) as Hnull.
  { unfold extractTelegramId, idFromUser. cbv zeta.
    rewrite Huser, (truthyStr_Some _ Hne). simpl. rewrite Hparse. reflexivity. }
  split; [exact Hnull|].
  intros today random db Hverify.
  assert (truthyStr (Some initData) = true) as Hpayload.
  { apply truthyStr_Some. intros ->. discriminate Huser. }
  unfold post_api_spin. rewrite Hpayload.
  unfold route, mbind, Async_bind, liftC.
  change (default "" (Some initData)) with initData.
  rewrite Hverify, Hnull. reflexivity.
Qed.

End Identity.

(** C7 on a signed payload whose [user] field is not JSON and whose flat
    [id] is 42. *)
Lemma unparseable_user_hides_flat_id_witness :
  @extractTelegramId utcHost "user=not-json&id=42" = Normal None
  ∧ @post_api_spin utcHost
      (Some ("user=not-json&id=42&hash=hmac(sha256(123:secret),id=42" +:+ LF
             +:+ "user=not-json)")) 0 (1 # 2) [] =
    (json 400 (ErrorBody "Cannot determine user id"), []).
Proof.
  split.
  - refine (proj1 (@unparseable_user_hides_flat_id utcHost
                     "user=not-json&id=42" "not-json" "42"
                     (SyntaxError "Unexpected token") _ _ _ _ _));
      [reflexivity | discriminate | reflexivity | reflexivity | discriminate].
  - refine (proj2 (@unparseable_user_hides_flat_id utcHost
                     ("user=not-json&id=42&hash=hmac(sha256(123:secret),id=42"
                      +:+ LF +:+ "user=not-json)") "not-json" "42"
                     (SyntaxError "Unexpected token") _ _ _ _ _) 0 (1 # 2) [] _);
      [reflexivity | discriminate | reflexivity | reflexivity | discriminate
      | vm_compute; reflexivity].
Defined.

(** ** The draw *)

Section Draw.

Context `{host : Host}.

Lemma drawIndex_bounds random :
  (0 <= random)%Q → (random < 1)%Q → 0 ≤ drawIndex random < 4.
Proof.
  intros Hlo Hhi. unfold drawIndex.
  change (inject_Z (Z.of_nat (length rewards))) with 4%Q.
  split.
  - change 0 with (Qfloor 0). apply Qfloor_resp_le. lra.
  - rewrite Zlt_Qlt. eapply Qle_lt_trans; [apply Qfloor_le|].
    change (inject_Z 4) with 4%Q. lra.
Qed.

(** C10. For a value of [Math.random()] in its range, from 0 up to but not
    including 1, the index drawn is one of 0, 1, 2, 3, the table has a
    reward there, and a spin that passed the quota check answers with the
    label of that reward, one of the four of the table. The table and the
    draw are the same in the older file. *)
Theorem reward_draw_in_table random :
  (0 <= random)%Q → (random < 1)%Q →
  0 ≤ drawIndex random < Z.of_nat (length rewards)
  ∧ ∃ reward,
      drawReward random = Some reward
      ∧ reward ∈ rewards
      ∧ label reward ∈ ["0.001 ETH"; "5 USDT"; "Try Again"; "0.1 ETH"]
      ∧ ∀ today i user (db : Store),
          0 < User.spinsLeft (rollover today user) →
          ∃ bal n,
            (route (spinLoaded today random i user) db).1 =
              json 200 (RewardBody (label reward) bal n).
Proof.
  intros Hlo Hhi. pose proof (drawIndex_bounds random Hlo Hhi) as Hidx.
  split; [exact Hidx|].
  assert (∃ reward, drawReward random = Some reward ∧ reward ∈ rewards
                    ∧ label reward
                      ∈ ["0.001 ETH"; "5 USDT"; "Try Again"; "0.1 ETH"])
    as (reward & Hdraw & Hin & Hlabel).
  { unfold drawReward.
    assert (drawIndex random = 0 ∨ drawIndex random = 1
            ∨ drawIndex random = 2 ∨ drawIndex random = 3)
      as [-> | [-> | [-> | ->]]] by lia;
      (eexists; split; [reflexivity|];
       split; apply list_elem_of_In; simpl; tauto). }
  exists reward. repeat (split; [assumption|]).
  intros today i user db Hquota.
  destruct (spinLoaded_cases today random i user db)
    as [[Hle _] | [(_ & Hnone & _) | (reward' & _ & Hdraw' & Hrun)]].
  - lia.
  - congruence.
  - cbv zeta in Hrun. rewrite Hrun. simpl.
    assert (reward' = reward) as -> by congruence. eauto.
Qed.

End Draw.

(** C10 for a draw of one half. *)
Lemma reward_draw_in_table_witness :
  (0 <= 1 # 2)%Q ∧ (1 # 2 < 1)%Q
  ∧ 0 ≤ drawIndex (1 # 2) < Z.of_nat (length rewards).
Proof.
  assert (0 <= 1 # 2)%Q as Hlo by (vm_compute; discriminate).
  assert (1 # 2 < 1)%Q as Hhi by reflexivity.
  split; [exact Hlo|]. split; [exact Hhi|].
  exact (proj1 (@reward_draw_in_table utcHost (1 # 2) Hlo Hhi)).
Defined.

(** Outside that range there may be no reward, and the route answers 500. *)
Example draw_out_of_range :
  drawReward (5 # 4) = None
  ∧ route (@spinEngine utcHost "u" 0 (5 # 4)) [] =
      (json 500 (ErrorBody "Internal server error"), [User.new "u"]).
Proof. split; reflexivity. Qed.

(** ** Several calls of one caller *)

Lemma countIf_cons {A} (p : A → bool) x (l : list A) :
  countIf p (x :: l) = (if p x then 1 else 0) + countIf p l.
Proof. unfold countIf. simpl. destruct (p x); simpl length; lia. Qed.

Lemma applyReward_keeps reward user :
  User.telegramId (applyReward reward user) = User.telegramId user
  ∧ User.lastSpinDate (applyReward reward user) = User.lastSpinDate user.
Proof. unfold applyReward. destruct (Qlt_le_dec _ _); split; reflexivity. Qed.

Section Serial.

Context `{host : Host}.

Lemma spinAll_cons telegramId today random rest (db : Store) :
  spinAll telegramId ((today, random) :: rest) db =
    let step := route (spinEngine telegramId today random) db in
    (step.1 :: (spinAll telegramId rest step.2).1,
     (spinAll telegramId rest step.2).2).
Proof.
  simpl. destruct (route _ db) as [r db1]. simpl.
  destruct (spinAll telegramId rest db1) as [rs db2]. reflexivity.
Qed.

(** A handler that runs from its first to its last [await] with no other
    handler in between does what the engine does. *)
Lemma uninterrupted_task_is_engine rq (db : Store) :
  let s1 := taskStep rq AtFindOne db in
  let s2 := taskStep rq s1.1 s1.2 in
  let s3 := taskStep rq s2.1 s2.2 in
  let eng :=
    route (spinEngine (req_telegramId rq) (req_today rq) (req_random rq)) db in
  s3 = (Finished eng.1, eng.2).
Proof.
  cbv zeta.
  set (eng := route (spinEngine _ _ _) db).
  assert (eng =
            match list_find (λ u, User.telegramId u = req_telegramId rq) db with
            | Some doc =>
                route (spinLoaded (req_today rq) (req_random rq) doc.1 doc.2) db
            | None =>
                route (spinLoaded (req_today rq) (req_random rq) (length db)
                         (User.new (req_telegramId rq)))
                  (db ++ [User.new (req_telegramId rq)])
            end) as ->.
  { unfold eng, route. rewrite spinEngine_eq, loadUser_eq.
    destruct (list_find _ db); reflexivity. }
  change (taskStep rq AtFindOne db)
    with (match list_find (λ u, User.telegramId u = req_telegramId rq) db with
          | Some doc => (AtSpin doc.1 doc.2, db)
          | None => (AtSaveNew, db)
          end).
  destruct (list_find _ db) as [[j user]|]; simpl.
  - by destruct (route _ db) as [r db'].
  - by destruct (route _ (db ++ _)) as [r db'].
Qed.

Lemma same_day_no_rollover today last user :
  User.lastSpinDate user = Some last →
  toDateString today = toDateString last →
  rollover today user = user.
Proof.
  intros Hlast Hday. apply rollover_not_due. unfold rolloverDue.
  rewrite Hlast, Hday, Z.eqb_refl. reflexivity.
Qed.

Lemma drawReward_in_range random :
  (0 <= random)%Q → (random < 1)%Q →
  ∃ reward, drawReward random = Some reward ∧ reward ∈ rewards.
Proof.
  intros Hlo Hhi. pose proof (drawIndex_bounds random Hlo Hhi) as Hidx.
  unfold drawReward.
  assert (drawIndex random = 0 ∨ drawIndex random = 1
          ∨ drawIndex random = 2 ∨ drawIndex random = 3)
    as [-> | [-> | [-> | ->]]] by lia;
    (eexists; split; [reflexivity|]; apply list_elem_of_In; simpl; tauto).
Qed.

End Serial.

(** *** Serial schedules of the handlers in flight *)

Section SerialSchedule.

Context `{host : Host}.

Lemma schedStep_at done rq t rest (db : Store) :
  schedStep (done ++ (rq, t) :: rest, db) (length done) =
    (done ++ (rq, (taskStep rq t db).1) :: rest, (taskStep rq t db).2).
Proof.
  unfold schedStep. simpl.
  rewrite list_lookup_middle by reflexivity.
  destruct (taskStep rq t db) as [t' db']. simpl.
  rewrite insert_app_r_alt by lia. by rewrite Nat.sub_diag.
Qed.

Lemma serial_from telegramId calls :
  ∀ done (db : Store),
    runSchedule (serialSchedule (length done) (length calls))
      (done ++ ((λ c : Z * Q, (mkRequest telegramId c.1 c.2, AtFindOne))
                  <$> calls), db) =
    (done ++ zip_with (λ (c : Z * Q) r,
                         (mkRequest telegramId c.1 c.2, Finished r))
               calls (spinAll telegramId calls db).1,
     (spinAll telegramId calls db).2).
Proof.
  induction calls as [|[today random] rest IH]; intros done db; [reflexivity|].
  rewrite spinAll_cons. cbv zeta.
  unfold serialSchedule, runSchedule in *. simpl seq. simpl flat_map.
  rewrite fmap_cons. simpl fold_left.
  pose proof (uninterrupted_task_is_engine
                (mkRequest telegramId today random) db) as Htask.
  cbv zeta in Htask. simpl in Htask.
  rewrite !schedStep_at. simpl fst in *. simpl snd in *.
  rewrite Htask. simpl fst. simpl snd.
  specialize (IH (done ++ [(mkRequest telegramId today random,
                            Finished (route (spinEngine telegramId today random)
                                        db).1)])
                 (route (spinEngine telegramId today random) db).2).
  rewrite length_app, Nat.add_1_r in IH. rewrite <- !app_assoc in IH.
  simpl app in IH. rewrite IH. reflexivity.
Qed.

(** The handlers of [calls], scheduled one after the other, answer what
    [spinAll] answers and leave the collection it leaves. *)
Lemma serial_schedule_is_spinAll telegramId calls (db : Store) :
  let final :=
    runSchedule (serialSchedule 0 (length calls))
      (start ((λ c : Z * Q, mkRequest telegramId c.1 c.2) <$> calls) db) in
  omap id (responses final) = (spinAll telegramId calls db).1
  ∧ final.2 = (spinAll telegramId calls db).2.
Proof.
  cbv zeta. unfold start. rewrite <- list_fmap_compose.
  pose proof (serial_from telegramId calls [] db) as Hrun.
  simpl in Hrun. unfold compose. rewrite Hrun. simpl. split; [|reflexivity].
  unfold responses. simpl.
  assert (length (spinAll telegramId calls db).1 = length calls) as Hlen.
  { clear. revert db. induction calls as [|[today random] rest IH]; intros db;
      [reflexivity|].
    rewrite spinAll_cons. simpl. by rewrite IH. }
  revert Hlen. generalize (spinAll telegramId calls db).1. clear.
  induction calls as [|c rest IH]; intros [|r rs] Hlen; simplify_eq/=;
    [reflexivity|].
  by rewrite IH.
Qed.

End SerialSchedule.

(** C9 as the specification words it fails. Two calls of one caller with
    one spin left, both handlers reading the account before either writes
    it back: both are granted, where the lesser of 2 and 1 is 1; the
    account ends with 0 spins left and with a balance of 5, where the
    granted values add up to 5.001. *)
Lemma interleaved_spins_grant_twice :
  let account := User.mk "u" 1 [] 0 (Some 0) in
  let rqs := [mkRequest "u" 1000 0; mkRequest "u" 2000 (1 # 4)] in
  let final := @runSchedule utcHost [0; 1; 0; 1]%nat (start rqs [account]) in
  responses final =
    [Some (json 200 (RewardBody "0.001 ETH" (1 # 1000) 0));
     Some (json 200 (RewardBody "5 USDT" 5 0))]
  ∧ countIf isGranted (omap id (responses final)) = 2
  ∧ countIf isGranted (omap id (responses final)) ≠ Z.min 2 1
  ∧ (User.spinsLeft <$> final.2) = [0]
  ∧ (User.balance <$> final.2) = [5%Q]
  ∧ ¬ (5 == 0 + sumQ (grantedValue <$> omap id (responses final)))%Q.
Proof.
  cbv zeta. split; [vm_compute; reflexivity|].
  split; [vm_compute; reflexivity|].
  split; [vm_compute; discriminate|].
  split; [vm_compute; reflexivity|].
  split; [vm_compute; reflexivity|].
  vm_compute. discriminate.
Qed.

(** The same two calls served one after the other. *)
Example serial_spins_grant_once :
  let account := User.mk "u" 1 [] 0 (Some 0) in
  let rqs := [mkRequest "u" 1000 0; mkRequest "u" 2000 (1 # 4)] in
  responses (@runSchedule utcHost [0; 0; 1; 1]%nat (start rqs [account])) =
    [Some (json 200 (RewardBody "0.001 ETH" (1 # 1000) 0));
     Some (json 200 (NoSpinsBody "No spins left today" 0))].
Proof. vm_compute. reflexivity. Qed.

(** * Further properties of the code *)

(** ** What one operation does to the collection *)

Section Runs.

Context `{host : Host}.

Lemma drawReward_Some random reward :
  drawReward random = Some reward → reward ∈ rewards.
Proof.
  unfold drawReward, index. destruct (drawIndex random <? 0); [discriminate|].
  apply list_elem_of_lookup_2.
Qed.

(** The ways a spin for [telegramId] can leave the collection. *)
Lemma spinEngine_shape telegramId today random (db : Store) :
  let find := list_find (λ u, User.telegramId u = telegramId) db in
  let out := route (spinEngine telegramId today random) db in
  (isGranted out.1 = false ∧ out.2 = db)
  ∨ (isGranted out.1 = false ∧ find = None
     ∧ out.2 = db ++ [User.new telegramId])
  ∨ (∃ j user reward,
       find = Some (j, user) ∧ 0 < User.spinsLeft (rollover today user)
       ∧ drawReward random = Some reward
       ∧ out = (json 200
                  (RewardBody (label reward)
                     (User.balance (spent today reward user))
                     (User.spinsLeft (spent today reward user))),
                <[j := spent today reward user]> db))
  ∨ (∃ reward,
       find = None ∧ drawReward random = Some reward
       ∧ out = (json 200
                  (RewardBody (label reward)
                     (User.balance (spent today reward (User.new telegramId)))
                     (User.spinsLeft (spent today reward (User.new telegramId)))),
                db ++ [spent today reward (User.new telegramId)])).
Proof.
  cbv zeta. unfold route at 1 2 3 4 5 6. rewrite spinEngine_eq, loadUser_eq.
  destruct (list_find _ db) as [[j user]|] eqn:Hfind; simpl.
  - destruct (spinLoaded_cases today random j user db)
      as [[_ Hr] | [(_ & _ & Hr) | (reward & Hgt & Hdraw & Hr)]];
      unfold route in Hr.
    + left. destruct (spinLoaded _ _ j user db) as [[r|e] db']; by simplify_eq.
    + left. destruct (spinLoaded _ _ j user db) as [[r|e] db']; by simplify_eq.
    + right. right. left. exists j, user, reward.
      split; [reflexivity|]. split; [exact Hgt|]. split; [exact Hdraw|].
      exact Hr.
  - destruct (spinLoaded_cases today random (length db) (User.new telegramId)
                (db ++ [User.new telegramId]))
      as [[_ Hr] | [(_ & _ & Hr) | (reward & Hgt & Hdraw & Hr)]];
      unfold route in Hr.
    + right. left.
      destruct (spinLoaded _ _ _ _ _) as [[r|e] db']; by simplify_eq.
    + right. left.
      destruct (spinLoaded _ _ _ _ _) as [[r|e] db']; by simplify_eq.
    + right. right. right. exists reward.
      split; [reflexivity|]. split; [exact Hdraw|].
      cbv zeta in Hr. rewrite Hr. f_equal.
      rewrite insert_app_r_alt by lia. by rewrite Nat.sub_diag.
Qed.

Lemma bot_start_shape telegramId (db : Store) :
  (bot_start telegramId db).2 =
    match list_find (λ u, User.telegramId u = telegramId) db with
    | Some _ => db
    | None => db ++ [User.new telegramId]
    end.
Proof.
  unfold bot_start, async_try_catch, mbind, Async_bind.
  rewrite loadUser_eq. by destruct (list_find _ db).
Qed.

(** One operation leaves the collection as it is, adds the document of a
    new caller (spent or not), writes back the spent document of a caller
    it found, or is the reset. *)
Lemma step_shape (db : Store) op :
  step db op = db
  ∨ (∃ telegramId,
       list_find (λ u, User.telegramId u = telegramId) db = None
       ∧ step db op = db ++ [User.new telegramId])
  ∨ (∃ telegramId j user today reward,
       list_find (λ u, User.telegramId u = telegramId) db = Some (j, user)
       ∧ 0 < User.spinsLeft (rollover today user) ∧ reward ∈ rewards
       ∧ step db op = <[j := spent today reward user]> db)
  ∨ (∃ telegramId today reward,
       list_find (λ u, User.telegramId u = telegramId) db = None
       ∧ reward ∈ rewards
       ∧ step db op = db ++ [spent today reward (User.new telegramId)])
  ∨ (∃ now,
       step db op =
         (λ u, User.set_lastSpinDate (Some now) (User.set_spinsLeft 3 u))
           <$> db).
Proof.
  destruct op as [initData today random | telegramId | now]; simpl.
  - destruct (post_api_spin_cases initData today random db)
      as [[_ Hsame] | [telegramId ->]]; [by left|].
    destruct (spinEngine_shape telegramId today random db)
      as [[_ Hr] | [(_ & Hnone & Hr)
          | [(j & user & reward & Hfind & Hgt & Hdraw & Hr)
            | (reward & Hnone & Hdraw & Hr)]]].
    + by left.
    + right. left. by exists telegramId.
    + right. right. left. exists telegramId, j, user, today, reward.
      split; [exact Hfind|]. split; [exact Hgt|].
      split; [by eapply drawReward_Some|]. by rewrite Hr.
    + right. right. right. left. exists telegramId, today, reward.
      split; [exact Hnone|]. split; [by eapply drawReward_Some|].
      by rewrite Hr.
  - rewrite bot_start_shape.
    destruct (list_find _ db) eqn:Hfind; [by left|].
    right. left. by exists telegramId.
  - right. right. right. right. by exists now.
Qed.

Lemma spent_keeps today reward user :
  User.telegramId (spent today reward user) = User.telegramId user.
Proof.
  unfold spent. rewrite (proj1 (applyReward_keeps _ _)). simpl.
  unfold rollover. by destruct (rolloverDue today user).
Qed.




End Runs.

(** ** Invariants of runs *)

Section RunInvariants.

Context `{host : Host}.

Lemma find_None_not_in telegramId (db : Store) :
  list_find (λ u, User.telegramId u = telegramId) db = None →
  telegramId ∉ ids db.
Proof.
  intros Hnone Hin. unfold ids in Hin.
  apply list_elem_of_fmap in Hin as (u & -> & Hu).
  apply list_find_None in Hnone. rewrite Forall_forall in Hnone.
  by apply (Hnone u).
Qed.

Lemma ids_insert_spent (db : Store) telegramId j user today reward :
  list_find (λ u, User.telegramId u = telegramId) db = Some (j, user) →
  ids (<[j := spent today reward user]> db) = ids db.
Proof.
  intros (Hj & _)%list_find_Some. unfold ids.
  rewrite list_fmap_insert, spent_keeps. apply list_insert_id.
  by rewrite list_lookup_fmap, Hj.
Qed.

Lemma step_ids (db : Store) op :
  ids (step db op) = ids db
  ∨ (∃ telegramId,
       (telegramId ∉ ids db) ∧ ids (step db op) = ids db ++ [telegramId]).
Proof.
  destruct (step_shape db op)
    as [-> | [(tid & Hnone & ->)
       | [(tid & j & user & today & reward & Hfind & _ & _ & ->)
         | [(tid & today & reward & Hnone & _ & ->) | (now & ->)]]]].
  - by left.
  - right. exists tid. split; [by apply find_None_not_in|].
    unfold ids. by rewrite fmap_app.
  - left. by eapply ids_insert_spent.
  - right. exists tid. split; [by apply find_None_not_in|].
    unfold ids. rewrite fmap_app. simpl. by rewrite spent_keeps.
  - left. unfold ids. rewrite <- list_fmap_compose. reflexivity.
Qed.

(** X1. Served one request at a time, the collection never holds two
    documents of one identity: if the identities are distinct before a run
    of spins, [/start] commands and resets, they are distinct after it. *)
Theorem one_account_per_identity ops (db : Store) :
  NoDup (ids db) → NoDup (ids (run ops db)).
Proof.
  revert db. induction ops as [|op ops IH]; intros db Hdb; [exact Hdb|].
  simpl. apply IH.
  destruct (step_ids db op) as [-> | (tid & Hfresh & ->)]; [exact Hdb|].
  apply NoDup_app. split; [exact Hdb|]. split; [|apply NoDup_singleton].
  intros x Hx Hin. apply list_elem_of_singleton in Hin. by subst.
Qed.



End RunInvariants.

(** X1 on a collection of two accounts and a run that adds a third. *)
Lemma one_account_per_identity_witness :
  let db := [User.mk "7" 1 [] 0 (Some 0); User.mk "8" 3 [] 0 None] in
  let ops := [OpStart "7"; OpStart "9"; OpReset 5000; OpStart "9"] in
  NoDup (ids db) ∧ NoDup (ids (@run utcHost ops db)).
Proof.
  assert (NoDup (ids [User.mk "7" 1 [] 0 (Some 0); User.mk "8" 3 [] 0 None]))
    as Hdb.
  { unfold ids. simpl. apply NoDup_cons.
    split; [rewrite list_elem_of_singleton; discriminate | apply NoDup_singleton]. }
  split; [exact Hdb|].
  exact (@one_account_per_identity utcHost
           [OpStart "7"; OpStart "9"; OpReset 5000; OpStart "9"] _ Hdb).
Defined.


(** ** Creating accounts and the daily allotment *)

Section Allotment.

Context `{host : Host}.

Lemma find_appended telegramId (db : Store) u :
  list_find (λ u, User.telegramId u = telegramId) db = None →
  User.telegramId u = telegramId →
  list_find (λ u, User.telegramId u = telegramId) (db ++ [u])
    = Some (length db, u).
Proof.
  intros Hnone Hid. rewrite list_find_app_r by exact Hnone. simpl.
  rewrite decide_True by exact Hid. reflexivity.
Qed.

Lemma find_spent telegramId (db : Store) j user today reward :
  list_find (λ u, User.telegramId u = telegramId) db = Some (j, user) →
  list_find (λ u, User.telegramId u = telegramId)
    (<[j := spent today reward user]> db)
    = Some (j, spent today reward user).
Proof.
  intros (Hj & Hid & Hleast)%list_find_Some.
  apply list_find_insert_Some. right. left.
  split; [reflexivity|]. split; [reflexivity|].
  split; [by eapply lookup_lt_Some|].
  split; [by rewrite spent_keeps | exact Hleast].
Qed.

(** X4. Get-or-create is idempotent when requests are served one at a
    time: loading the document of an identity a second time returns the
    same document at the same position and leaves the collection alone, and
    the first load adds at most the one new document. *)
Theorem loadUser_idempotent telegramId (db db1 : Store) j user :
  loadUser telegramId db = (Normal (j, user), db1) →
  loadUser telegramId db1 = (Normal (j, user), db1)
  ∧ (db1 = db ∨ (db1 = db ++ [user] ∧ user = User.new telegramId)).
Proof.
  rewrite !loadUser_eq.
  destruct (list_find _ db) as [[j0 u0]|] eqn:Hfind; intros Heq; simplify_eq.
  - rewrite Hfind. split; [reflexivity | by left].
  - rewrite find_appended by done. split; [reflexivity | by right].
Qed.

(** X5. A caller without an account who spins with a draw in range gets
    the account and the reward in one call: the answer is 200 with the
    label drawn and 2 spins left, and the collection gains exactly one
    document, with the caller's identity, 2 spins left, the call's time as
    last spin date, the value drawn as balance, and the label as history if
    the value is above 0. *)
Theorem first_spin_of_new_caller telegramId today random (db : Store) :
  list_find (λ u, User.telegramId u = telegramId) db = None →
  (0 <= random)%Q → (random < 1)%Q →
  ∃ reward u,
    drawReward random = Some reward
    ∧ route (spinEngine telegramId today random) db =
        (json 200 (RewardBody (label reward) (User.balance u) 2), db ++ [u])
    ∧ User.telegramId u = telegramId
    ∧ User.spinsLeft u = 2
    ∧ User.lastSpinDate u = Some today
    ∧ (User.balance u == value reward)%Q
    ∧ User.rewards u =
        if Qlt_le_dec 0 (value reward) then [label reward] else [].
Proof.
  intros Hnone Hlo Hhi.
  destruct (drawReward_in_range random Hlo Hhi) as (reward & Hdraw & Hin).
  exists reward, (spent today reward (User.new telegramId)).
  split; [exact Hdraw|].
  destruct (spinEngine_shape telegramId today random db)
    as [[Hng Hr] | [(Hng & _ & Hr)
        | [(j & user & reward' & Hfind & _) | (reward' & _ & Hdraw' & Hr)]]].
  - exfalso. revert Hng. unfold route. rewrite spinEngine_eq, loadUser_eq, Hnone.
    simpl. rewrite spinLoaded_eq. simpl. by rewrite Hdraw.
  - exfalso. revert Hng. unfold route. rewrite spinEngine_eq, loadUser_eq, Hnone.
    simpl. rewrite spinLoaded_eq. simpl. by rewrite Hdraw.
  - congruence.
  - assert (reward' = reward) as -> by congruence.
    assert (User.spinsLeft (spent today reward (User.new telegramId)) = 2)
      as Hs by (unfold spent; by rewrite applyReward_spinsLeft).
    rewrite Hs in Hr. split; [exact Hr|].
    split; [apply spent_keeps|]. split; [exact Hs|].
    split; [unfold spent; by rewrite (proj2 (applyReward_keeps _ _))|].
    apply list_elem_of_In in Hin. simpl in Hin.
    destruct Hin as [<- | [<- | [<- | [<- | []]]]]; split; reflexivity.
Qed.

(** One call on the local day [day] uses up one unit of the allowance of
    that day if it is granted, and none if it is not. *)
Lemma spin_uses_allowance day telegramId today random (db : Store) :
  toDateString today = day →
  let out := route (spinEngine telegramId today random) db in
  allowance day telegramId out.2 =
    allowance day telegramId db - (if isGranted out.1 then 1 else 0).
Proof.
  intros <-. cbv zeta.
  destruct (spinEngine_shape telegramId today random db)
    as [[-> ->] | [(-> & Hnone & ->)
        | [(j & user & reward & Hfind & Hgt & _ & ->)
          | (reward & Hnone & _ & ->)]]]; cbn [fst snd isGranted body].
  - lia.
  - unfold allowance. rewrite Hnone, find_appended by done. simpl. lia.
  - unfold allowance. rewrite Hfind, (find_spent _ _ _ _ _ _ Hfind).
    unfold spent at 1 2. rewrite applyReward_spinsLeft.
    rewrite (proj2 (applyReward_keeps _ _)).
    cbn [User.set_spinsLeft User.lastSpinDate User.spinsLeft].
    unfold rollover, rolloverDue.
    destruct (User.lastSpinDate user) as [last|] eqn:Hlast.
    + destruct (toDateString last =? toDateString today) eqn:Hsame; simpl.
      * rewrite Hlast, Hsame. lia.
      * rewrite Z.eqb_refl. lia.
    + simpl. rewrite Z.eqb_refl. lia.
  - unfold allowance.
    rewrite Hnone,
      (find_appended _ _ _ Hnone
         (spent_keeps today reward (User.new telegramId))).
    unfold spent. rewrite applyReward_spinsLeft.
    rewrite (proj2 (applyReward_keeps _ _)). simpl.
    rewrite Z.eqb_refl. lia.
Qed.

Lemma allowance_range day telegramId (db : Store) :
  quotaOk db → 0 ≤ allowance day telegramId db ≤ 3.
Proof.
  intros Hdb. unfold allowance.
  destruct (list_find _ db) as [[j u]|] eqn:Hfind; [|lia].
  apply list_find_Some in Hfind as (Hj & _).
  unfold quotaOk in Hdb. rewrite Forall_lookup in Hdb.
  pose proof (Hdb j u Hj).
  destruct (User.lastSpinDate u) as [last|]; [|lia].
  destruct (toDateString last =? day); lia.
Qed.

Lemma spinAll_quotaOk telegramId calls :
  ∀ db : Store, quotaOk db → quotaOk (spinAll telegramId calls db).2.
Proof.
  induction calls as [|[today random] rest IH]; intros db Hdb; [exact Hdb|].
  rewrite spinAll_cons. cbv zeta. simpl snd.
  by apply IH, spinEngine_quotaOk.
Qed.

(** X6. On one local calendar day a caller is granted at most 3 spins,
    whatever the account held before (within the allotment) and whether it
    existed: for calls served one after the other, all at instants of the
    local day [day], the number of granted calls is the allowance of that
    day before the calls minus the allowance after them, and the allowance
    lies between 0 and 3. *)
Theorem daily_grants_bounded day telegramId calls (db : Store) :
  quotaOk db →
  (∀ c : Z * Q, c ∈ calls → toDateString c.1 = day) →
  countIf isGranted (spinAll telegramId calls db).1 =
    allowance day telegramId db
    - allowance day telegramId (spinAll telegramId calls db).2
  ∧ countIf isGranted (spinAll telegramId calls db).1 ≤ 3.
Proof.
  intros Hdb Hcalls.
  assert (countIf isGranted (spinAll telegramId calls db).1 =
            allowance day telegramId db
            - allowance day telegramId (spinAll telegramId calls db).2) as Hcount.
  { clear Hdb. revert db.
    induction calls as [|[today random] rest IH]; intros db.
    - simpl. unfold countIf. simpl. lia.
    - rewrite spinAll_cons. cbv zeta. cbn [fst snd].
      rewrite countIf_cons, IH by (intros c Hc; apply Hcalls; by right).
      rewrite (spin_uses_allowance day telegramId today random db)
        by (apply (Hcalls (today, random)); by left).
      lia. }
  split; [exact Hcount|]. rewrite Hcount.
  pose proof (allowance_range day telegramId db Hdb).
  pose proof (allowance_range day telegramId _
                (spinAll_quotaOk telegramId calls db Hdb)).
  lia.
Qed.

End Allotment.

(** X4 for a caller who has no account yet. *)
Lemma loadUser_idempotent_witness :
  loadUser "9" [User.new "7"; User.new "9"]
    = (Normal (1%nat, User.new "9"), [User.new "7"; User.new "9"]).
Proof.
  refine (proj1 (loadUser_idempotent "9" [User.new "7"] _ _ _ _)).
  reflexivity.
Defined.

(** X5 for a caller of the empty collection. *)
Lemma first_spin_of_new_caller_witness :
  ∃ reward u,
    drawReward (1 # 4) = Some reward
    ∧ route (@spinEngine utcHost "9" 1000 (1 # 4)) [] =
        (json 200 (RewardBody (label reward) (User.balance u) 2), [] ++ [u])
    ∧ User.telegramId u = "9"
    ∧ User.spinsLeft u = 2
    ∧ User.lastSpinDate u = Some 1000
    ∧ (User.balance u == value reward)%Q
    ∧ User.rewards u =
        if Qlt_le_dec 0 (value reward) then [label reward] else [].
Proof.
  refine (@first_spin_of_new_caller utcHost "9" 1000 (1 # 4) [] _ _ _).
  - reflexivity.
  - vm_compute. discriminate.
  - reflexivity.
Defined.

(** X6 on five calls of one day against an account that last spun the day
    before. *)
Lemma daily_grants_bounded_witness :
  let db := [User.mk "u" 1 [] 0 (Some 0)] in
  let calls :=
    [(86400000, 0%Q); (86400001, 1 # 4); (86400002, 1 # 2); (86400003, 3 # 4);
     (86400004, 0%Q)] in
  countIf isGranted (@spinAll utcHost "u" calls db).1 ≤ 3.
Proof.
  refine (proj2 (@daily_grants_bounded utcHost 1 "u" _
                   [User.mk "u" 1 [] 0 (Some 0)] _ _)).
  - apply Forall_singleton. simpl. lia.
  - intros c Hc. apply list_elem_of_In in Hc. simpl in Hc.
    destruct Hc as [<- | [<- | [<- | [<- | [<- | []]]]]]; reflexivity.
Defined.

(** ** The reset and the next spin *)

Section AfterReset.

Context `{host : Host}.

Lemma find_after_reset telegramId (db : Store) j user now :
  list_find (λ u, User.telegramId u = telegramId) db = Some (j, user) →
  list_find (λ u, User.telegramId u = telegramId) (step db (OpReset now))
    = Some (j, User.set_lastSpinDate (Some now) (User.set_spinsLeft 3 user)).
Proof.
  intros (Hj & Hid & Hleast)%list_find_Some. apply list_find_Some. simpl.
  split; [by rewrite list_lookup_fmap, Hj|]. split; [exact Hid|].
  intros i y Hi Hlt. rewrite list_lookup_fmap in Hi.
  destruct (db !! i) as [u|] eqn:Hu; simplify_eq/=. by eapply Hleast.
Qed.

(** X7. The first spin of an existing account after a global reset, at any
    later or earlier instant and with a draw in range, is granted and
    leaves 2 spins: the reset stored 3, and the rollover check of the spin
    either keeps that 3 or stores 3 again. *)
Theorem first_spin_after_reset telegramId (db : Store) j user now today random :
  list_find (λ u, User.telegramId u = telegramId) db = Some (j, user) →
  (0 <= random)%Q → (random < 1)%Q →
  ∃ reward bal,
    drawReward random = Some reward
    ∧ (route (spinEngine telegramId today random) (step db (OpReset now))).1 =
        json 200 (RewardBody (label reward) bal 2).
Proof.
  intros Hfind Hlo Hhi.
  destruct (drawReward_in_range random Hlo Hhi) as (reward & Hdraw & _).
  exists reward. unfold route.
  rewrite spinEngine_eq, loadUser_eq, (find_after_reset _ _ _ _ now Hfind).
  cbn [fst snd]. rewrite spinLoaded_eq. cbv zeta.
  set (u := User.set_lastSpinDate (Some now) (User.set_spinsLeft 3 user)).
  assert (User.spinsLeft (rollover today u) = 3) as Hfull.
  { unfold rollover. by destruct (rolloverDue today u). }
  rewrite Hfull, Hdraw. simpl. rewrite applyReward_spinsLeft. simpl.
  eexists. split; reflexivity.
Qed.

End AfterReset.

(** X7 on an account that had used up its spins. *)
Lemma first_spin_after_reset_witness :
  ∃ reward bal,
    drawReward (1 # 2) = Some reward
    ∧ (route (@spinEngine utcHost "u" 9000 (1 # 2))
         (@step utcHost [User.mk "u" 0 [] 0 (Some 0)] (OpReset 5000))).1 =
        json 200 (RewardBody (label reward) bal 2).
Proof.
  refine (@first_spin_after_reset utcHost "u" [User.mk "u" 0 [] 0 (Some 0)]
            0%nat (User.mk "u" 0 [] 0 (Some 0)) 5000 9000 (1 # 2) _ _ _).
  - reflexivity.
  - vm_compute. discriminate.
  - reflexivity.
Defined.

(** ** Handlers in flight together *)

Section Overlap.

Context `{host : Host}.

Lemma taskStep_keeps_quota rq t (db : Store) :
  taskOk (rq, t) → quotaOk db →
  taskOk (rq, (taskStep rq t db).1) ∧ quotaOk (taskStep rq t db).2.
Proof.
  intros Ht Hdb. destruct t as [| |i user|r]; simpl.
  - unfold UserModel.findOne.
    destruct (list_find _ db) as [[i u]|] eqn:Hfind; simpl; [|done].
    split; [|exact Hdb]. unfold taskOk. simpl.
    apply list_find_Some in Hfind as (Hi & _).
    unfold quotaOk in Hdb. rewrite Forall_lookup in Hdb. by apply (Hdb i).
  - split; [unfold taskOk; simpl; lia|].
    apply Forall_app. split; [exact Hdb|]. apply Forall_singleton. simpl. lia.
  - unfold taskOk in Ht. simpl in Ht.
    pose proof (rollover_quota (req_today rq) user Ht) as Hroll.
    destruct (spinLoaded_cases (req_today rq) (req_random rq) i user db)
      as [[_ ->] | [(_ & _ & ->) | (reward & Hgt & _ & Hr)]]; [done..|].
    cbv zeta in Hr. rewrite Hr. simpl. split; [done|].
    apply Forall_insert; [exact Hdb|].
    rewrite applyReward_spinsLeft. simpl. lia.
  - done.
Qed.

Lemma schedStep_keeps_quota (st : Pool) k :
  Forall taskOk st.1 → quotaOk st.2 →
  Forall taskOk (schedStep st k).1 ∧ quotaOk (schedStep st k).2.
Proof.
  intros Hpool Hdb. unfold schedStep.
  destruct (st.1 !! k) as [[rq t]|] eqn:Hk; [|done].
  assert (taskOk (rq, t)) as Ht.
  { rewrite Forall_lookup in Hpool. by apply (Hpool k). }
  destruct (taskStep_keeps_quota rq t st.2 Ht Hdb) as [Ht' Hdb'].
  destruct (taskStep rq t st.2) as [t' db']. simpl in *.
  split; [by apply Forall_insert | exact Hdb'].
Qed.

(** X8. Overlapping spin handlers of any callers, interleaved at their awaits
    in any order, never drive a stored [spinsLeft] below 0 or above 3: if
    every account is within the allotment when the handlers start, every
    account is within it after every schedule. *)
Theorem overlapping_handlers_keep_quota sched rqs (db : Store) :
  quotaOk db → quotaOk (runSchedule sched (start rqs db)).2.
Proof.
  intros Hdb.
  assert (Forall taskOk (start rqs db).1) as Hpool.
  { unfold start. simpl. apply Forall_fmap, Forall_true. by intros rq. }
  change db with (start rqs db).2 in Hdb.
  revert Hpool Hdb. generalize (start rqs db). unfold runSchedule.
  induction sched as [|k sched IH]; intros st Hpool Hdb; [exact Hdb|].
  simpl. destruct (schedStep_keeps_quota st k Hpool Hdb) as [Hpool' Hdb'].
  by apply IH.
Qed.

End Overlap.

(** X8 on the two overlapping calls that are both granted. *)
Lemma overlapping_handlers_keep_quota_witness :
  let db := [User.mk "u" 1 [] 0 (Some 0)] in
  let rqs := [mkRequest "u" 1000 0; mkRequest "u" 2000 (1 # 4)] in
  quotaOk db ∧ quotaOk (@runSchedule utcHost [0; 1; 0; 1]%nat (start rqs db)).2.
Proof.
  assert (quotaOk [User.mk "u" 1 [] 0 (Some 0)]) as Hdb
    by (apply Forall_singleton; simpl; lia).
  split; [exact Hdb|].
  exact (@overlapping_handlers_keep_quota utcHost [0; 1; 0; 1]%nat
           [mkRequest "u" 1000 0; mkRequest "u" 2000 (1 # 4)] _ Hdb).
Defined.

(** ** What the route answers *)

Section RouteAnswers.

Context `{host : Host}.

Lemma verifyTelegram_returns initData :
  ∃ ok, verifyTelegram initData = Normal ok.
Proof.
  unfold verifyTelegram. destruct (negb (truthyStr initData)); [by exists false|].
  destruct (verifyParsed _) as [ok|e]; simpl; [by exists ok | by exists false].
Qed.

(** X9. The route touches the collection, and answers 200, only for a
    payload that verified and from which a non-empty identity was
    extracted; it then does what the engine does for that identity. A
    request that fails one of the checks leaves the collection as it was. *)
Theorem spin_needs_verified_identity initData today random (db : Store) :
  (post_api_spin initData today random db).2 ≠ db
  ∨ status (post_api_spin initData today random db).1 = 200 →
  verifyTelegram initData = Normal true
  ∧ ∃ telegramId,
      extractTelegramId (default "" initData) = Normal (Some telegramId)
      ∧ telegramId ≠ ""
      ∧ post_api_spin initData today random db =
          route (spinEngine telegramId today random) db.
Proof.
  unfold post_api_spin.
  destruct (truthyStr initData); simpl;
    [|intros [Hne | Hst]; [done | discriminate]].
  unfold route at 1 2 4. unfold mbind, Async_bind, liftC.
  destruct (verifyTelegram initData) as [[|]|e]; simpl;
    try (intros [Hne | Hst]; [done | discriminate]).
  destruct (extractTelegramId (default "" initData)) as [[tid|]|e]; simpl;
    try (intros [Hne | Hst]; [done | discriminate]).
  destruct (String.eqb_spec tid "") as [-> | Hne]; simpl;
    [intros [Hne | Hst]; [done | discriminate]|].
  intros _. split; [reflexivity|]. exists tid. by repeat split.
Qed.

(** On a string, and on a missing value, the handler is the route of the
    properties above. *)
Lemma spinHandler_text text today random :
  spinHandler (Some (InitText text)) today random
    = post_api_spin (Some text) today random
  ∧ verifyTelegramOf (InitText text) = verifyTelegram (Some text)
  ∧ extractTelegramIdOf (InitText text) = extractTelegramId text.
Proof. repeat split. Qed.

Lemma spinHandler_missing today random :
  spinHandler (Some InitFalsy) today random = post_api_spin None today random.
Proof. reflexivity. Qed.

Lemma verifyTelegramOf_returns initData :
  ∃ ok, verifyTelegramOf initData = Normal ok.
Proof.
  unfold verifyTelegramOf. destruct (negb (truthyInit initData));
    [by exists false|].
  destruct (paramsOf initData) as [parsed|e]; simpl; [|by exists false].
  destruct (verifyParsed parsed) as [ok|e]; simpl;
    [by exists ok | by exists false].
Qed.

Lemma extractTelegramIdOf_returns initData :
  ∃ id, extractTelegramIdOf initData = Normal id.
Proof.
  unfold extractTelegramIdOf.
  match goal with
  | |- ∃ id, try_catch ?c _ = _ =>
      destruct c as [id|e]; simpl; [by exists id | by exists None]
  end.
Qed.

(** X10. With a draw in range and a store that answers, the handler
    answers 500 for one kind of request only: the one without a parsed
    body, where reading [initData] from [req.body] throws. Whatever kind
    of value [initData] is (missing, text, an object or array that
    [new URLSearchParams] takes or rejects), the answer is 200, 400 or 403.
    The request without a body leaves the collection as it was. *)
Theorem internal_error_only_without_body body today random (db : Store) :
  (0 <= random)%Q → (random < 1)%Q →
  status (spinHandler body today random db).1 ∈ [200; 400; 403; 500]
  ∧ (status (spinHandler body today random db).1 = 500 ↔ body = None)
  ∧ (body = None → (spinHandler body today random db).2 = db).
Proof.
  intros Hlo Hhi.
  destruct (drawReward_in_range random Hlo Hhi) as (reward & Hdraw & _).
  assert (∀ telegramId,
            status (route (spinEngine telegramId today random) db).1 = 200)
    as Hengine.
  { intros tid.
    destruct (spinEngine_cases tid today random db)
      as (j & user & db1 & _ & _ & _ & ->).
    destruct (spinLoaded_cases today random j user db1)
      as [[_ ->] | [(_ & Hnone & _) | (reward' & _ & _ & Hr)]];
      [reflexivity | congruence |].
    cbv zeta in Hr. by rewrite Hr. }
  destruct body as [initData|]; [|simpl; split; [|done]];
    [|apply list_elem_of_In; simpl; tauto].
  assert (status (spinHandler (Some initData) today random db).1
            ∈ [200; 400; 403]) as Hin.
  { unfold spinHandler.
    destruct (truthyInit initData); simpl;
      [|apply list_elem_of_In; simpl; tauto].
    unfold route at 1. unfold mbind, Async_bind, liftC.
    destruct (verifyTelegramOf_returns initData) as [ok ->].
    destruct ok; simpl; [|apply list_elem_of_In; simpl; tauto].
    destruct (extractTelegramIdOf_returns initData) as [tid ->].
    destruct (truthyStr tid) eqn:Htid; simpl;
      [|apply list_elem_of_In; simpl; tauto].
    specialize (Hengine (default "" tid)). unfold route in Hengine.
    rewrite Hengine. apply list_elem_of_In. simpl. tauto. }
  apply list_elem_of_In in Hin. simpl in Hin.
  split; [apply list_elem_of_In; simpl; tauto|].
  split; [|discriminate]. split; [|discriminate].
  intros H500. rewrite H500 in Hin. exfalso.
  destruct Hin as [? | [? | [? | []]]]; discriminate.
Qed.

End RouteAnswers.

(** X9 on a signed payload. *)
Lemma spin_needs_verified_identity_witness :
  @verifyTelegram utcHost (Some "id=42&hash=hmac(sha256(123:secret),id=42)")
    = Normal true.
Proof.
  refine (proj1 (@spin_needs_verified_identity utcHost
                   (Some "id=42&hash=hmac(sha256(123:secret),id=42)")
                   0 0%Q [] _)).
  right. reflexivity.
Defined.

(** X10 on a request without a body, and on one whose [initData] is an
    array that [new URLSearchParams] rejects. *)
Lemma internal_error_only_without_body_witness :
  status (@spinHandler utcHost None 0 (1 # 2) []).1 = 500
  ∧ status (@spinHandler utcHost
              (Some (InitFields (Throw (TypeError "not a pair")))) 0 (1 # 2)
              []).1 ∈ [200; 400; 403; 500].
Proof.
  split.
  - refine (proj2 (proj1 (proj2 (@internal_error_only_without_body utcHost
                                   None 0 (1 # 2) [] _ _))) _);
      [vm_compute; discriminate | reflexivity | reflexivity].
  - refine (proj1 (@internal_error_only_without_body utcHost
                     (Some (InitFields (Throw (TypeError "not a pair"))))
                     0 (1 # 2) [] _ _));
      [vm_compute; discriminate | reflexivity].
Defined.

(** ** Signatures *)

Lemma get_app_found name (l1 l2 : list URLSearchParams.Entry) v :
  URLSearchParams.get name l1 = Some v →
  URLSearchParams.get name (l1 ++ l2) = Some v.
Proof.
  induction l1 as [|[k w] l1 IH]; simpl; [discriminate|].
  destruct (String.eqb k name); [done | exact IH].
Qed.

Lemma get_unique name v (l : list URLSearchParams.Entry) :
  (name, v) ∈ l → (∀ w, (name, w) ∈ l → w = v) →
  URLSearchParams.get name l = Some v.
Proof.
  induction l as [|[k w] l IH]; intros Hin Huniq.
  - by apply not_elem_of_nil in Hin.
  - simpl. destruct (String.eqb_spec k name) as [-> | Hne].
    + f_equal. apply Huniq. by left.
    + apply IH.
      * apply elem_of_cons in Hin as [Heq | Hin]; [congruence | exact Hin].
      * intros w' Hw'. apply Huniq. by right.
Qed.

Lemma get_None_not_in name (l : list URLSearchParams.Entry) w :
  URLSearchParams.get name l = None → (name, w) ∉ l.
Proof.
  induction l as [|[k v] l IH]; simpl; intros Hget Hin.
  - by apply not_elem_of_nil in Hin.
  - destruct (String.eqb_spec k name) as [-> | Hne]; [discriminate|].
    apply elem_of_cons in Hin as [Heq | Hin]; [congruence | by apply IH].
Qed.

Lemma delete_absent name (l : list URLSearchParams.Entry) :
  URLSearchParams.get name l = None → URLSearchParams.delete name l = l.
Proof.
  unfold URLSearchParams.delete.
  induction l as [|[k v] l IH]; simpl; [done|]. intros Hget.
  destruct (String.eqb_spec k name) as [-> | Hne]; [discriminate|].
  rewrite filter_cons_True by (simpl; by apply negb_true_iff, String.eqb_neq).
  by rewrite IH.
Qed.

Lemma delete_app name (l1 l2 : list URLSearchParams.Entry) :
  URLSearchParams.delete name (l1 ++ l2) =
    URLSearchParams.delete name l1 ++ URLSearchParams.delete name l2.
Proof. unfold URLSearchParams.delete. apply filter_app. Qed.

Lemma delete_cons_same name v (l : list URLSearchParams.Entry) :
  URLSearchParams.delete name ((name, v) :: l) = URLSearchParams.delete name l.
Proof.
  unfold URLSearchParams.delete. rewrite filter_cons_False; [done|].
  simpl. rewrite String.eqb_refl. simpl. discriminate.
Qed.

Section Signatures.

Context `{host : Host}.

(** X11. A payload signed the way Telegram signs verifies, wherever the
    hash field sits and however the fields are ordered: if no field is
    named hash, the hash is the hex HMAC of the check-string of the fields
    under the key derived from the token, and that hash is not empty, then
    every arrangement of the fields and the hash field is accepted. *)
Theorem signed_fields_verify fields key mac parsed :
  URLSearchParams.get "hash" fields = None →
  createHash_sha256 (default "" (orElse BOT_TOKEN (Some ""))) = Normal key →
  createHmac_sha256_hex key (dataCheckString fields) = Normal mac →
  mac ≠ "" →
  parsed ≡ₚ ("hash", mac) :: fields →
  verifyParsed parsed = Normal true
  ∧ ∀ s, URLSearchParams.new s = parsed → verifyTelegram (Some s) = Normal true.
Proof.
  intros Hnohash Hkey Hmac Hne Hperm.
  assert (URLSearchParams.get "hash" parsed = Some mac) as Hget.
  { apply get_unique.
    - rewrite Hperm. by left.
    - intros w Hw. rewrite Hperm in Hw.
      apply elem_of_cons in Hw as [Heq | Hw]; [congruence|].
      by apply (get_None_not_in _ _ w) in Hnohash. }
  assert (dataCheckString (URLSearchParams.delete "hash" parsed)
          = dataCheckString fields) as Hdcs.
  { rewrite (dataCheckString_of_permutation _ _
               (delete_of_permutation "hash" _ _ Hperm)).
    by rewrite delete_cons_same, delete_absent. }
  assert (verifyParsed parsed = Normal true) as Hok.
  { unfold verifyParsed. rewrite Hget, (truthyStr_Some _ Hne). simpl.
    rewrite Hdcs, Hkey. simpl. rewrite Hmac. simpl.
    by rewrite String.eqb_refl. }
  split; [exact Hok|]. intros s Hs. unfold verifyTelegram.
  destruct (truthyStr (Some s)) eqn:Hpayload; simpl.
  - change (default "" (Some s)) with s. by rewrite Hs, Hok.
  - exfalso. simpl in Hpayload.
    apply negb_false_iff, String.eqb_eq in Hpayload. subst s.
    simpl in Hs. subst parsed. discriminate Hget.
Qed.

(** X12. Only the first hash field is compared and every hash field is
    left out of the check-string: once a hash field with a value has been
    read, a further hash field anywhere behind it changes the verdict of
    neither the current [verifyTelegram] nor the older one. *)
Theorem later_hash_fields_ignored l1 l2 extra :
  truthyStr (URLSearchParams.get "hash" l1) = true →
  verifyParsed (l1 ++ ("hash", extra) :: l2) = verifyParsed (l1 ++ l2)
  ∧ Legacy.verifyParsed (l1 ++ ("hash", extra) :: l2)
    = Legacy.verifyParsed (l1 ++ l2).
Proof.
  intros Hfirst.
  destruct (URLSearchParams.get "hash" l1) as [h|] eqn:Hget; [|discriminate].
  unfold verifyParsed, Legacy.verifyParsed.
  rewrite !(get_app_found _ _ _ _ Hget), !delete_app, delete_cons_same.
  split; reflexivity.
Qed.

End Signatures.

(** X11 on the fields id and user with the hash in the middle. *)
Lemma signed_fields_verify_witness :
  @verifyTelegram utcHost
    (Some ("id=42&hash=hmac(sha256(123:secret),id=42" +:+ LF
           +:+ "user=null)&user=null")) = Normal true.
Proof.
  refine (proj2 (@signed_fields_verify utcHost
                   [("id", "42"); ("user", "null")]
                   "sha256(123:secret)"
                   ("hmac(sha256(123:secret),id=42" +:+ LF +:+ "user=null)")
                   [("id", "42");
                    ("hash", "hmac(sha256(123:secret),id=42" +:+ LF
                             +:+ "user=null)");
                    ("user", "null")] _ _ _ _ _) _ _).
  - reflexivity.
  - reflexivity.
  - reflexivity.
  - discriminate.
  - apply perm_swap.
  - reflexivity.
Defined.

(** X12 on a payload with a second, wrong hash at its end. *)
Lemma later_hash_fields_ignored_witness :
  @verifyParsed utcHost
    ([("id", "42"); ("hash", "hmac(sha256(123:secret),id=42)")]
       ++ [("hash", "wrong")])
  = @verifyParsed utcHost
      ([("id", "42"); ("hash", "hmac(sha256(123:secret),id=42)")] ++ []).
Proof.
  refine (proj1 (@later_hash_fields_ignored utcHost
                   [("id", "42"); ("hash", "hmac(sha256(123:secret),id=42)")]
                   [] "wrong" _)).
  reflexivity.
Defined.

(** ** The calendar and the scheduler *)

Lemma DayFromYear_cycle c : DayFromYear (1601 + 400 * c) = 146097 * c - 134774.
Proof.
  unfold DayFromYear.
  replace (1601 + 400 * c - 1969) with ((100 * c - 92) * 4) by lia.
  replace (1601 + 400 * c - 1901) with ((4 * c - 3) * 100) by lia.
  replace (1601 + 400 * c - 1601) with (c * 400) by lia.
  rewrite !Z.div_mul by lia. lia.
Qed.

(** A year has [DaysInYear] days. *)
Lemma DayFromYear_succ y : DayFromYear (y + 1) = DayFromYear y + DaysInYear y.
Proof.
  unfold DayFromYear, DaysInYear.
  destruct (Z.eqb_spec (y mod 4) 0) as [H4|H4];
    destruct (Z.eqb_spec (y mod 100) 0) as [H100|H100];
    destruct (Z.eqb_spec (y mod 400) 0) as [H400|H400]; simpl;
    Z.div_mod_to_equations; lia.
Qed.

Lemma DaysInYear_range y : DaysInYear y = 365 ∨ DaysInYear y = 366.
Proof.
  unfold DaysInYear.
  destruct (negb _); [by left|]. destruct (negb _); [by right|].
  destruct (negb _); [by left | by right].
Qed.

Lemma yearFrom_bracket fuel :
  ∀ y day,
    DayFromYear y ≤ day < DayFromYear (y + Z.of_nat fuel) →
    DayFromYear (yearFrom fuel y day) ≤ day
    ∧ day < DayFromYear (yearFrom fuel y day + 1).
Proof.
  induction fuel as [|fuel IH]; intros y day Hday.
  - rewrite Z.add_0_r in Hday. lia.
  - simpl. destruct (Z.leb_spec (DayFromYear (y + 1)) day) as [Hle|Hgt].
    + apply IH. split; [exact Hle|].
      replace (y + 1 + Z.of_nat fuel) with (y + Z.of_nat (S fuel)) by lia.
      apply Hday.
    + lia.
Qed.

(** [YearFromTime] is the year the standard asks for: it starts on or
    before the day of [t], and the next year starts after it. *)
Lemma YearFromTime_bracket t :
  DayFromYear (YearFromTime t) ≤ Day t < DayFromYear (YearFromTime t + 1).
Proof.
  unfold YearFromTime. cbv zeta.
  set (day := Day t). set (c := (day - DayFromYear 1601) / 146097).
  apply yearFrom_bracket.
  replace (1601 + 400 * c + Z.of_nat 400) with (1601 + 400 * (c + 1)) by lia.
  rewrite !DayFromYear_cycle.
  change (DayFromYear 1601) with (-134774) in c.
  pose proof (Z.div_mod (day - -134774) 146097 ltac:(lia)) as Hdiv.
  pose proof (Z.mod_pos_bound (day - -134774) 146097 ltac:(lia)) as Hmod.
  fold c in Hdiv. lia.
Qed.

Lemma DayWithinYear_range t :
  0 ≤ DayWithinYear t < 365 + InLeapYear t.
Proof.
  pose proof (YearFromTime_bracket t) as Hy.
  rewrite DayFromYear_succ in Hy. unfold DayWithinYear, InLeapYear.
  destruct (DaysInYear_range (YearFromTime t)) as [Hd | Hd]; rewrite Hd in *;
    simpl; lia.
Qed.

Lemma monthOfDay_range d L :
  0 ≤ d < 365 + L → 0 ≤ L ≤ 1 →
  0 ≤ monthOfDay d L ≤ 11
  ∧ monthStart (monthOfDay d L) L ≤ d
  ∧ d - monthStart (monthOfDay d L) L + 1 ≤ 31.
Proof.
  intros Hd HL. unfold monthOfDay.
  destruct (Z.ltb_spec d 31); [unfold monthStart; simpl; lia|].
  destruct (Z.ltb_spec d (59 + L)); [unfold monthStart; simpl; lia|].
  destruct (Z.ltb_spec d (90 + L)); [unfold monthStart; simpl; lia|].
  destruct (Z.ltb_spec d (120 + L)); [unfold monthStart; simpl; lia|].
  destruct (Z.ltb_spec d (151 + L)); [unfold monthStart; simpl; lia|].
  destruct (Z.ltb_spec d (181 + L)); [unfold monthStart; simpl; lia|].
  destruct (Z.ltb_spec d (212 + L)); [unfold monthStart; simpl; lia|].
  destruct (Z.ltb_spec d (243 + L)); [unfold monthStart; simpl; lia|].
  destruct (Z.ltb_spec d (273 + L)); [unfold monthStart; simpl; lia|].
  destruct (Z.ltb_spec d (304 + L)); [unfold monthStart; simpl; lia|].
  destruct (Z.ltb_spec d (334 + L)); unfold monthStart; simpl; lia.
Qed.

(** The getters give a month from 0 to 11 and a date from 1 to 31. *)
Lemma getUTC_ranges t :
  0 ≤ getUTCMonth t ≤ 11 ∧ 1 ≤ getUTCDate t ≤ 31.
Proof.
  unfold getUTCMonth, getUTCDate, DateFromTime, MonthFromTime.
  pose proof (DayWithinYear_range t) as Hd.
  assert (0 ≤ InLeapYear t ≤ 1) as HL
    by (unfold InLeapYear; destruct (_ =? _); lia).
  pose proof (monthOfDay_range _ _ Hd HL). lia.
Qed.

(** [Date.UTC] of the year, month and date of an instant, with [k] added to
    the date, is midnight UTC [k] days after the day of the instant. *)
Lemma MakeDay_of_getters t k :
  MakeDay (getUTCFullYear t) (getUTCMonth t) (getUTCDate t + k) = Day t + k.
Proof.
  destruct (getUTC_ranges t) as [Hm _].
  unfold MakeDay. cbv zeta.
  rewrite (Z.div_small (getUTCMonth t) 12), (Z.mod_small (getUTCMonth t) 12),
    Z.add_0_r by lia.
  unfold getUTCDate, DateFromTime, getUTCMonth, getUTCFullYear.
  fold (InLeapYear t). unfold DayWithinYear. lia.
Qed.

Lemma DayFromYear_mono y n :
  DayFromYear y + 365 * Z.of_nat n ≤ DayFromYear (y + Z.of_nat n).
Proof.
  induction n as [|n IH].
  { change (Z.of_nat 0) with 0. replace (y + 0) with y by lia. lia. }
  replace (y + Z.of_nat (S n)) with (y + Z.of_nat n + 1) by lia.
  rewrite DayFromYear_succ.
  destruct (DaysInYear_range (y + Z.of_nat n)); lia.
Qed.

Lemma DayFromYear_lt y y' : y < y' → DayFromYear y < DayFromYear y'.
Proof.
  intros Hlt. pose proof (DayFromYear_mono y (Z.to_nat (y' - y))) as Hm.
  rewrite Z2Nat.id in Hm by lia. replace (y + (y' - y)) with y' in Hm by lia.
  lia.
Qed.

Lemma monthStart_leap m L L' :
  0 ≤ L ≤ 1 → 0 ≤ L' ≤ 1 →
  monthStart m L - 1 ≤ monthStart m L' ≤ 335.
Proof.
  intros HL HL'. unfold monthStart.
  repeat (destruct (_ =? _); [lia|]). lia.
Qed.

Lemma MakeFullYear_cases year :
  (0 ≤ year ≤ 99 ∧ MakeFullYear year = 1900 + year)
  ∨ ((year < 0 ∨ 99 < year) ∧ MakeFullYear year = year).
Proof.
  unfold MakeFullYear.
  destruct (Z.leb_spec 0 year); destruct (Z.leb_spec year 99); simpl;
    [left | right..]; (split; [lia | reflexivity]).
Qed.

(** A number in the range of dates makes a date, and the date has that
    number as its time. *)
Lemma newDate_in_range t :
  Z.abs t ≤ 8640000000000000 → newDate (TimeClip t) = Some t.
Proof.
  intros Hin. unfold newDate, TimeClip.
  destruct (Z.leb_spec (Z.abs t) 8640000000000000) as [_ | Hout]; [|lia].
  simpl. destruct (Z.leb_spec (Z.abs t) 8640000000000000) as [_ | Hout];
    [reflexivity | lia].
Qed.

(** The day that [MakeDay] gives for the day after day [d] of month [m] of
    year [1900 + y] is more than 693499 days after day [d] of month [m] of
    year [y], and before the year 2001. *)
Lemma century_later y m d :
  0 ≤ y ≤ 99 → 0 ≤ m ≤ 11 → 1 ≤ d ≤ 31 →
  MakeDay y m d + 693500 ≤ MakeDay (1900 + y) m (d + 1) ≤ 11323.
Proof.
  intros Hy Hm Hd. unfold MakeDay. cbv zeta.
  rewrite (Z.div_small m 12), (Z.mod_small m 12), !Z.add_0_r by lia.
  pose proof (monthStart_leap m
                (if DaysInYear y =? 366 then 1 else 0)
                (if DaysInYear (1900 + y) =? 366 then 1 else 0)) as Hms.
  destruct (DaysInYear y =? 366); destruct (DaysInYear (1900 + y) =? 366);
    specialize (Hms ltac:(lia) ltac:(lia));
    pose proof (DayFromYear_mono y 1900) as Hup;
    replace (y + Z.of_nat 1900) with (1900 + y) in Hup by lia;
    pose proof (DayFromYear_lt (1900 + y) 2000 ltac:(lia)) as Htop;
    change (DayFromYear 2000) with 10957 in Htop; lia.
Qed.

(** X17. Started at any instant of the range of dates but its last day, the
    scheduler arms its first reset with a delay that is a number. Unless
    the UTC year of the instant is one of the years 0 to 99, the reset is
    armed for the first midnight UTC after the instant: the delay is more
    than 0 and at most 24 hours (a full 24 hours when started exactly at
    midnight), and the instant it ends at is the start of the next UTC
    day. In the years 0 to 99 [Date.UTC] reads the year as one of the
    twentieth century, and the delay is more than 693499 days. *)
Theorem first_reset_at_next_utc_midnight now :
  -8640000000000000 ≤ now → now + msPerDay ≤ 8640000000000000 →
  ∃ ms,
    msUntilNext now = Some ms
    ∧ (getUTCFullYear now < 0 ∨ 99 < getUTCFullYear now →
       0 < ms ≤ msPerDay
       ∧ now + ms = (Day now + 1) * msPerDay
       ∧ (now + ms) mod msPerDay = 0
       ∧ Day (now + ms) = Day now + 1)
    ∧ (0 ≤ getUTCFullYear now ≤ 99 → 693499 * msPerDay < ms).
Proof.
  intros Hlo Hhi. unfold msUntilNext, Date_UTC.
  pose proof (Z.div_mod now msPerDay ltac:(discriminate)) as Hdiv.
  pose proof (Z.mod_pos_bound now msPerDay ltac:(reflexivity)) as Hmod.
  fold (Day now) in Hdiv.
  destruct (getUTC_ranges now) as [Hm Hd].
  destruct (MakeFullYear_cases (getUTCFullYear now)) as [[Hy ->] | [Hy ->]].
  - (* a year from 0 to 99 *)
    pose proof (century_later _ _ _ Hy Hm Hd) as Hc.
    pose proof (MakeDay_of_getters now 0) as Hnow.
    rewrite !Z.add_0_r in Hnow. rewrite Hnow in Hc. clear Hnow Hm Hd.
    revert Hc.
    generalize (MakeDay (1900 + getUTCFullYear now) (getUTCMonth now)
                  (getUTCDate now + 1)).
    revert Hy. generalize (getUTCFullYear now). intros y Hy day Hc.
    rewrite newDate_in_range by (unfold MakeDate, msPerDay in *; lia).
    exists (MakeDate day 0 - now). split; [reflexivity|]. split; [lia|].
    intros _. unfold MakeDate, msPerDay in *. lia.
  - (* any other year *)
    rewrite MakeDay_of_getters. clear Hm Hd. revert Hy.
    generalize (getUTCFullYear now). intros y Hy.
    rewrite newDate_in_range by (unfold MakeDate, msPerDay in *; lia).
    exists (MakeDate (Day now + 1) 0 - now). split; [reflexivity|].
    split; [|lia]. intros _. unfold MakeDate.
    replace (now + ((Day now + 1) * msPerDay + 0 - now))
      with ((Day now + 1) * msPerDay) by lia.
    unfold msPerDay in *. split; [lia|]. split; [reflexivity|].
    split; [apply Z.mod_mul; lia|].
    unfold Day at 1. unfold msPerDay. apply Z.div_mul. lia.
Qed.

(** X17 for a start at 23:30 UTC on 1 January 2024: the delay is half an
    hour. *)
Lemma first_reset_at_next_utc_midnight_witness :
  msUntilNext 1704151800000 = Some 1800000.
Proof.
  destruct (first_reset_at_next_utc_midnight 1704151800000)
    as (ms & Hms & Hnext & _).
  - vm_compute. discriminate.
  - vm_compute. discriminate.
  - rewrite Hms. f_equal.
    assert (99 < getUTCFullYear 1704151800000) as Hyear
      by (vm_compute; reflexivity).
    destruct (Hnext (or_intror Hyear)) as (_ & Hsum & _).
    clear Hms Hnext Hyear.
    change ((Day 1704151800000 + 1) * msPerDay) with 1704153600000 in Hsum.
    lia.
Defined.

(** ** The token and the identity *)

(** X13. A server started without a bot token verifies as if the token
    were the empty string: the key is the digest of the empty string, so a
    payload signed under that key is accepted. The older file has no such
    default: without a token its [verifyTelegram] throws for every
    payload. *)
Theorem unset_token_is_empty_token (h : Host) initData :
  @verifyTelegram (withToken None h) initData
    = @verifyTelegram (withToken (Some "") h) initData
  ∧ ∃ e, @Legacy.verifyTelegram (withToken None h) initData = Throw e.
Proof.
  split; [reflexivity|].
  unfold Legacy.verifyTelegram, Legacy.verifyParsed. simpl. eauto.
Qed.

Section IdentityOrder.

Context `{host : Host}.

(** X14. The id of the nested user object wins over the flat fields: when
    the [user] field parses to a value with a truthy [id], the identity is
    that id as a string, whatever [id] and [user_id] fields the payload
    carries. *)
Theorem nested_id_wins initData userStr userObj id s :
  URLSearchParams.get "user" (URLSearchParams.new initData) = Some userStr →
  userStr ≠ "" →
  JSON_parse userStr = Normal userObj →
  truthy userObj = true → getProp userObj "id" = Some id →
  truthy id = true → toString id = Normal s →
  extractTelegramId initData = Normal (Some s).
Proof.
  intros Huser Hne Hparse Hobj Hid Htruthy Hstr.
  unfold extractTelegramId, idFromUser. cbv zeta.
  rewrite Huser, (truthyStr_Some _ Hne). simpl.
  rewrite Hparse. unfold mbind, completion_bind, mret, completion_ret. simpl.
  rewrite Hobj, Hid, Htruthy, Hstr. reflexivity.
Qed.

(** X15. When the [user] field gives no id without throwing (it is absent
    or empty, or it parses to a value that is falsy, has no [id], or has a
    falsy [id]), the identity is the [id] field if it is there and not
    empty, else the [user_id] field if it is there and not empty, else
    [null]. *)
Theorem flat_keys_in_order initData :
  let parsed := URLSearchParams.new initData in
  truthyStr (URLSearchParams.get "user" parsed) = false
  ∨ (∃ userObj,
       JSON_parse (default "" (URLSearchParams.get "user" parsed))
         = Normal userObj
       ∧ (truthy userObj = false ∨ getProp userObj "id" = None
          ∨ ∃ id, getProp userObj "id" = Some id ∧ truthy id = false)) →
  extractTelegramId initData =
    Normal
      (if truthyStr (URLSearchParams.get "id" parsed)
       then URLSearchParams.get "id" parsed
       else if truthyStr (URLSearchParams.get "user_id" parsed)
            then URLSearchParams.get "user_id" parsed
            else None).
Proof.
  cbv zeta. intros Hnested.
  assert (idFromUser
            (URLSearchParams.get "user" (URLSearchParams.new initData))
          = Normal None) as Hnone.
  { unfold idFromUser.
    destruct Hnested as [-> | (userObj & Hparse & Hobj)]; [reflexivity|].
    destruct (truthyStr _); [|reflexivity].
    rewrite Hparse. unfold mbind, completion_bind. simpl.
    destruct Hobj as [-> | [Hprop | (id & Hprop & Hid)]]; [reflexivity | |].
    - destruct (truthy userObj); by rewrite ?Hprop.
    - destruct (truthy userObj); [|reflexivity]. by rewrite Hprop, Hid. }
  unfold extractTelegramId. cbv zeta. rewrite Hnone.
  unfold mbind, completion_bind, mret, completion_ret, try_catch, orElse.
  destruct (truthyStr (URLSearchParams.get "id" _)) eqn:Hid.
  - repeat (rewrite Hid; simpl). reflexivity.
  - repeat (rewrite Hid; simpl).
    destruct (truthyStr (URLSearchParams.get "user_id" _)) eqn:Huid;
      repeat (rewrite Huid; simpl); reflexivity.
Qed.

End IdentityOrder.

(** X14 on a payload with a flat id 42 and a user object with id 7. *)
Lemma nested_id_wins_witness :
  @extractTelegramId objectHost ("id=42&user=" +:+ userSeven)
    = Normal (Some "7").
Proof.
  refine (@nested_id_wins objectHost ("id=42&user=" +:+ userSeven) userSeven
            (JObject [("id", JNumber 7)]) (JNumber 7) "7" _ _ _ _ _ _ _);
    [reflexivity | discriminate | reflexivity..].
Defined.

(** X15 on a payload whose user field is the JSON null and whose id field
    is empty. *)
Lemma flat_keys_in_order_witness :
  @extractTelegramId utcHost "user=null&id=&user_id=77" = Normal (Some "77").
Proof.
  refine (@flat_keys_in_order utcHost "user=null&id=&user_id=77" _).
  right. exists JNull. split; [reflexivity|]. by left.
Defined.

(** ** The shares of the rewards *)

Lemma Qfloor_eq x k :
  Qfloor x = k ↔ (inject_Z k <= x ∧ x < inject_Z (k + 1))%Q.
Proof.
  split.
  - intros <-. split; [apply Qfloor_le | apply Qlt_floor].
  - intros [Hlo Hhi].
    apply Qfloor_resp_le in Hlo. rewrite Qfloor_Z in Hlo.
    pose proof (Qle_lt_trans _ _ _ (Qfloor_le x) Hhi) as Hlt.
    rewrite <- Zlt_Qlt in Hlt. lia.
Qed.

(** X18. Each entry of the reward table has a quarter of the range of
    [Math.random()]: the index drawn is [k] exactly when the random value
    lies from [k/4] up to, but not including, [(k+1)/4]. *)
Theorem draw_shares_are_quarters random k :
  drawIndex random = k
  ↔ (inject_Z k / 4 <= random ∧ random < (inject_Z k + 1) / 4)%Q.
Proof.
  unfold drawIndex.
  change (inject_Z (Z.of_nat (length rewards))) with 4%Q.
  rewrite Qfloor_eq, inject_Z_plus. change (inject_Z 1) with 1%Q.
  unfold Qdiv. change (/ 4)%Q with (1 # 4)%Q.
  split; intros [Hlo Hhi]; split; lra.
Qed.

(** Two first calls of one new caller, overlapping: both handlers find no
    document and both save a new one, so the collection ends with two
    documents of one identity. *)
Example overlapping_first_calls_duplicate :
  let rqs := [mkRequest "u" 1000 0; mkRequest "u" 2000 (1 # 4)] in
  ids (@runSchedule utcHost [0; 1; 0; 1; 0; 1]%nat (start rqs [])).2
    = ["u"; "u"].
Proof. vm_compute. reflexivity. Qed.

(** * The spin route with balances as doubles *)

Section DoubleEngine.

Context `{host : Host}.

(** ** The pieces of the route *)

Lemma double_loadUser_eq telegramId (db : list Double.User.t) :
  Double.loadUser telegramId db =
    match list_find (λ u, Double.User.telegramId u = telegramId) db with
    | Some doc => (Normal doc, db)
    | None =>
        (Normal (length db, Double.User.new telegramId),
         db ++ [Double.User.new telegramId])
    end.
Proof.
  unfold Double.loadUser, mbind, Double.Async_bind, Double.UserModel.findOne.
  simpl. destruct (list_find _ db); reflexivity.
Qed.

Lemma double_loadUser_cases telegramId (db : list Double.User.t) :
  ∃ j user db1,
    Double.loadUser telegramId db = (Normal (j, user), db1)
    ∧ db1 !! j = Some user
    ∧ (db1 = db
       ∨ (db1 = db ++ [Double.User.new telegramId] ∧ j = length db
          ∧ user = Double.User.new telegramId)).
Proof.
  rewrite double_loadUser_eq.
  destruct (list_find _ db) as [[j user]|] eqn:Hfind.
  - exists j, user, db. split; [reflexivity|]. split; [|by left].
    apply list_find_Some in Hfind. tauto.
  - exists (length db), (Double.User.new telegramId),
      (db ++ [Double.User.new telegramId]).
    split; [reflexivity|]. split; [|by right].
    rewrite lookup_app_r by lia. by rewrite Nat.sub_diag.
Qed.

Lemma double_spinLoaded_eq today random i user (db : list Double.User.t) :
  Double.spinLoaded today random i user db =
    let u1 := Double.rollover today user in
    if Double.User.spinsLeft u1 <=? 0 then
      (Normal (Double.json 200
                 (Double.NoSpinsBody "No spins left today"
                    (Double.User.spinsLeft u1))),
       db)
    else
      match Double.drawReward random with
      | None => (Throw (TypeError "Cannot read properties of undefined"), db)
      | Some reward =>
          let u2 :=
            Double.applyReward reward
              (Double.User.set_spinsLeft (Double.User.spinsLeft u1 - 1) u1) in
          (Normal (Double.json 200
                     (Double.RewardBody (Double.label reward)
                        (Double.User.balance u2) (Double.User.spinsLeft u2))),
           <[i := u2]> db)
      end.
Proof.
  unfold Double.spinLoaded. cbv zeta.
  destruct (Double.User.spinsLeft (Double.rollover today user) <=? 0);
    [reflexivity|].
  destruct (Double.drawReward random); reflexivity.
Qed.

(** The three ways lines 203-230 can end. *)
Lemma double_spinLoaded_cases today random j user (db : list Double.User.t) :
  let u1 := Double.rollover today user in
  (Double.User.spinsLeft u1 ≤ 0
   ∧ Double.route (Double.spinLoaded today random j user) db =
       (Double.json 200
          (Double.NoSpinsBody "No spins left today"
             (Double.User.spinsLeft u1)), db))
  ∨ (0 < Double.User.spinsLeft u1 ∧ Double.drawReward random = None
     ∧ Double.route (Double.spinLoaded today random j user) db =
         (Double.json 500 (Double.ErrorBody "Internal server error"), db))
  ∨ (∃ reward,
       0 < Double.User.spinsLeft u1 ∧ Double.drawReward random = Some reward
       ∧ let u2 :=
           Double.applyReward reward
             (Double.User.set_spinsLeft (Double.User.spinsLeft u1 - 1) u1) in
         Double.route (Double.spinLoaded today random j user) db =
           (Double.json 200
              (Double.RewardBody (Double.label reward)
                 (Double.User.balance u2) (Double.User.spinsLeft u2)),
            <[j := u2]> db)).
Proof.
  cbv zeta. unfold Double.route. rewrite double_spinLoaded_eq. cbv zeta.
  destruct (Z.leb_spec (Double.User.spinsLeft (Double.rollover today user)) 0)
    as [Hle|Hgt].
  - left. split; [exact Hle | reflexivity].
  - right. destruct (Double.drawReward random) as [reward|].
    + right. exists reward. split; [exact Hgt|]. split; reflexivity.
    + left. split; [exact Hgt|]. split; reflexivity.
Qed.

Lemma double_spinEngine_cases telegramId today random
    (db : list Double.User.t) :
  ∃ j user db1,
    Double.loadUser telegramId db = (Normal (j, user), db1)
    ∧ db1 !! j = Some user
    ∧ (db1 = db
       ∨ (db1 = db ++ [Double.User.new telegramId] ∧ j = length db
          ∧ user = Double.User.new telegramId))
    ∧ Double.route (Double.spinEngine telegramId today random) db =
        Double.route (Double.spinLoaded today random j user) db1.
Proof.
  destruct (double_loadUser_cases telegramId db)
    as (j & user & db1 & Hload & Hj & Hdb1).
  exists j, user, db1. repeat split; try assumption.
  unfold Double.route, Double.spinEngine, mbind, Double.Async_bind.
  rewrite Hload. reflexivity.
Qed.

Lemma double_rollover_keeps today user :
  Double.User.balance (Double.rollover today user) = Double.User.balance user
  ∧ Double.User.rewards (Double.rollover today user)
    = Double.User.rewards user
  ∧ Double.User.telegramId (Double.rollover today user)
    = Double.User.telegramId user.
Proof.
  unfold Double.rollover. destruct (Double.rolloverDue today user);
    repeat split; reflexivity.
Qed.

Lemma double_applyReward_keeps reward user :
  Double.User.spinsLeft (Double.applyReward reward user)
    = Double.User.spinsLeft user
  ∧ Double.User.telegramId (Double.applyReward reward user)
    = Double.User.telegramId user
  ∧ Double.User.lastSpinDate (Double.applyReward reward user)
    = Double.User.lastSpinDate user.
Proof.
  unfold Double.applyReward. destruct (0 <? Double.value reward)%float;
    repeat split; reflexivity.
Qed.

Lemma double_drawReward_Some random reward :
  Double.drawReward random = Some reward → reward ∈ Double.rewards.
Proof.
  unfold Double.drawReward, index.
  destruct (Double.drawIndex random <? 0); [discriminate|].
  apply list_elem_of_lookup_2.
Qed.

Lemma double_drawReward_in_range random :
  (0 <= random)%Q → (random < 1)%Q →
  ∃ reward, Double.drawReward random = Some reward.
Proof.
  intros Hlo Hhi. pose proof (drawIndex_bounds random Hlo Hhi) as Hidx.
  unfold Double.drawReward.
  change (Double.drawIndex random) with (drawIndex random).
  assert (drawIndex random = 0 ∨ drawIndex random = 1
          ∨ drawIndex random = 2 ∨ drawIndex random = 3)
    as [-> | [-> | [-> | ->]]] by lia; eexists; reflexivity.
Qed.

Lemma double_valueOfLabel_table reward :
  reward ∈ Double.rewards →
  Double.valueOfLabel (Double.label reward) = Double.value reward.
Proof.
  intros Hin. apply list_elem_of_In in Hin. simpl in Hin.
  destruct Hin as [<- | [<- | [<- | [<- | []]]]]; reflexivity.
Qed.

(** ** Balance and reward history *)


(** ** Several calls of one caller *)

Lemma double_spinAll_cons telegramId today random rest
    (db : list Double.User.t) :
  Double.spinAll telegramId ((today, random) :: rest) db =
    let step := Double.route (Double.spinEngine telegramId today random) db in
    (step.1 :: (Double.spinAll telegramId rest step.2).1,
     (Double.spinAll telegramId rest step.2).2).
Proof.
  simpl. destruct (Double.route _ db) as [r db1]. simpl.
  destruct (Double.spinAll telegramId rest db1) as [rs db2]. reflexivity.
Qed.

Lemma double_same_day_no_rollover today last user :
  Double.User.lastSpinDate user = Some last →
  toDateString today = toDateString last →
  Double.rollover today user = user.
Proof.
  intros Hlast Hday. unfold Double.rollover, Double.rolloverDue.
  by rewrite Hlast, Hday, Z.eqb_refl.
Qed.

(** C9, as the code has it. Calls of one caller that are served one after
    the other, on the local day of the account's last spin and with draws
    in range, against an account with [k] spins left ([k] not negative):
    as many are granted as there are calls or spins left, whichever is
    less, every other call is answered "No spins left today", the account
    ends with that many spins less, and its balance is the double that
    comes of adding to the old balance, one after the other in the order
    of the calls, the values above zero of the granted rewards. *)
Theorem serial_spins_grant_min telegramId last i calls :
  ∀ (db : list Double.User.t) user,
    list_find (λ u, Double.User.telegramId u = telegramId) db
      = Some (i, user) →
    Double.User.lastSpinDate user = Some last →
    0 ≤ Double.User.spinsLeft user →
    (∀ c : Z * Q, c ∈ calls →
       toDateString c.1 = toDateString last ∧ (0 <= c.2)%Q ∧ (c.2 < 1)%Q) →
    let rs := (Double.spinAll telegramId calls db).1 in
    let granted :=
      Z.min (Z.of_nat (length calls)) (Double.User.spinsLeft user) in
    countIf Double.isGranted rs = granted
    ∧ countIf Double.isNoSpinsLeft rs = Z.of_nat (length calls) - granted
    ∧ ∃ user',
        (Double.spinAll telegramId calls db).2 !! i = Some user'
        ∧ Double.User.spinsLeft user' = Double.User.spinsLeft user - granted
        ∧ Double.User.balance user'
          = Double.addAll (Double.User.balance user) (Double.addedValues rs).
Proof.
  induction calls as [|[today random] rest IH];
    intros db user Hfind Hlast Hk Hcalls.
  - simpl. split; [unfold countIf; simpl; lia|].
    split; [unfold countIf; simpl; lia|].
    exists user. apply list_find_Some in Hfind as (Hi & _).
    split; [exact Hi|]. split; [lia | reflexivity].
  - destruct (Hcalls (today, random)) as (Hday & Hlo & Hhi); [by left|].
    simpl in Hday, Hlo, Hhi.
    assert (∀ c : Z * Q, c ∈ rest →
              toDateString c.1 = toDateString last ∧ (0 <= c.2)%Q ∧ (c.2 < 1)%Q)
      as Hrest by (intros c Hc; apply Hcalls; by right).
    rewrite double_spinAll_cons. cbv zeta.
    pose proof (double_same_day_no_rollover today last user Hlast Hday)
      as Hroll.
    assert (Double.route (Double.spinEngine telegramId today random) db =
              Double.route (Double.spinLoaded today random i user) db) as ->.
    { unfold Double.route, Double.spinEngine, mbind, Double.Async_bind.
      by rewrite double_loadUser_eq, Hfind. }
    destruct (double_spinLoaded_cases today random i user db)
      as [[Hle ->] | [(_ & Hnone & _) | (reward & Hgt & Hdraw & ->)]].
    + rewrite Hroll in Hle. simpl fst. simpl snd.
      destruct (IH db user Hfind Hlast Hk Hrest)
        as (Hg & Hn & user' & Hi & Hs & Hb).
      rewrite !countIf_cons, Hg, Hn.
      cbn [Double.isGranted Double.isNoSpinsLeft Double.body length].
      split; [lia|]. split; [lia|].
      exists user'. split; [exact Hi|]. split; [lia|]. exact Hb.
    + destruct (double_drawReward_in_range random Hlo Hhi) as (reward & Hdraw).
      congruence.
    + rewrite Hroll in *. simpl fst. simpl snd.
      pose proof (double_drawReward_Some _ _ Hdraw) as Hin.
      set (u2 := Double.applyReward reward
                   (Double.User.set_spinsLeft
                      (Double.User.spinsLeft user - 1) user)).
      destruct (double_applyReward_keeps reward
                  (Double.User.set_spinsLeft
                     (Double.User.spinsLeft user - 1) user))
        as (Hs2 & Hid2 & Hlast2).
      fold u2 in Hs2, Hid2, Hlast2. simpl in Hs2, Hid2, Hlast2.
      assert (list_find (λ u, Double.User.telegramId u = telegramId)
                (<[i := u2]> db) = Some (i, u2)) as Hfind2.
      { apply list_find_Some in Hfind as (Hi & Hp & Hleast).
        apply list_find_insert_Some. right. left.
        split; [reflexivity|]. split; [reflexivity|].
        split; [by eapply lookup_lt_Some|].
        split; [|intros i' z Hz Hlt; by eapply Hleast].
        rewrite Hid2. exact Hp. }
      destruct (IH (<[i := u2]> db) u2 Hfind2)
        as (Hg & Hn & user' & Hi & Hs & Hb);
        [rewrite Hlast2; exact Hlast | lia | exact Hrest |].
      rewrite !countIf_cons, Hg, Hn.
      cbn [Double.isGranted Double.isNoSpinsLeft Double.body length].
      rewrite Hs2. split; [lia|]. split; [lia|].
      exists user'. split; [exact Hi|]. split; [lia|].
      rewrite Hb. unfold Double.addedValues. cbn [omap list_omap Double.body].
      rewrite (double_valueOfLabel_table _ Hin).
      unfold u2, Double.applyReward.
      destruct (0 <? Double.value reward)%float; reflexivity.
Qed.

(** ** The balance and the history over runs of the server *)

Lemma double_addAll_snoc b vs v :
  Double.addAll b (vs ++ [v]) = (Double.addAll b vs + v)%float.
Proof. unfold Double.addAll. by rewrite fold_left_app. Qed.

Lemma double_spent_ledgerOk today reward user :
  reward ∈ Double.rewards → Double.ledgerOk user →
  Double.ledgerOk
    (Double.applyReward reward
       (Double.User.set_spinsLeft
          (Double.User.spinsLeft (Double.rollover today user) - 1)
          (Double.rollover today user))).
Proof.
  intros Hin. unfold Double.ledgerOk.
  destruct (double_rollover_keeps today user) as (Hbal & Hrew & _).
  unfold Double.applyReward.
  destruct (0 <? Double.value reward)%float; simpl; rewrite Hbal, Hrew;
    [|done].
  intros ->.
  rewrite fmap_app.
  change (Double.valueOfLabel <$> [Double.label reward])
    with [Double.valueOfLabel (Double.label reward)].
  by rewrite double_addAll_snoc, (double_valueOfLabel_table _ Hin).
Qed.

Lemma double_loadUser_ledgerOk telegramId (db db1 : list Double.User.t)
    j user :
  Double.loadUser telegramId db = (Normal (j, user), db1) →
  Forall Double.ledgerOk db → Forall Double.ledgerOk db1.
Proof.
  rewrite double_loadUser_eq.
  destruct (list_find _ db) as [doc|]; intros Heq Hdb; simplify_eq; [done|].
  apply Forall_app. split; [exact Hdb|]. by apply Forall_singleton.
Qed.

Lemma double_spinEngine_ledgerOk telegramId today random
    (db : list Double.User.t) :
  Forall Double.ledgerOk db →
  Forall Double.ledgerOk
    (Double.route (Double.spinEngine telegramId today random) db).2.
Proof.
  intros Hdb.
  destruct (double_spinEngine_cases telegramId today random db)
    as (j & user & db1 & Hload & Hj & _ & ->).
  pose proof (double_loadUser_ledgerOk _ _ _ _ _ Hload Hdb) as Hdb1.
  destruct (double_spinLoaded_cases today random j user db1)
    as [[_ ->] | [(_ & _ & ->) | (reward & _ & Hdraw & Hrun)]];
    [exact Hdb1 | exact Hdb1 |].
  cbv zeta in Hrun. rewrite Hrun. simpl.
  apply Forall_insert; [exact Hdb1|].
  apply double_spent_ledgerOk; [by eapply double_drawReward_Some|].
  rewrite Forall_lookup in Hdb1. by apply (Hdb1 j).
Qed.

Lemma double_post_api_spin_cases initData today random
    (db : list Double.User.t) :
  (Double.post_api_spin initData today random db).2 = db
  ∨ ∃ telegramId,
      Double.post_api_spin initData today random db =
        Double.route (Double.spinEngine telegramId today random) db.
Proof.
  unfold Double.post_api_spin.
  destruct (negb (truthyStr initData)); [by left|].
  unfold Double.route, mbind, Double.Async_bind, Double.liftC.
  destruct (verifyTelegram initData) as [ok|e]; [|by left].
  destruct ok; simpl; [|by left].
  destruct (extractTelegramId (default "" initData)) as [tid|e]; [|by left].
  destruct (negb (truthyStr tid)); [by left|].
  right. exists (default "" tid). reflexivity.
Qed.

Lemma double_step_ledgerOk (db : list Double.User.t) op :
  Forall Double.ledgerOk db → Forall Double.ledgerOk (Double.step db op).
Proof.
  intros Hdb. destruct op as [initData today random | telegramId | now]; simpl.
  - destruct (double_post_api_spin_cases initData today random db)
      as [-> | [tid ->]]; [exact Hdb|].
    by apply double_spinEngine_ledgerOk.
  - unfold Double.bot_start, Double.async_try_catch, mbind, Double.Async_bind.
    destruct (double_loadUser_cases telegramId db)
      as (j & user & db1 & Hload & _ & _).
    rewrite Hload. simpl. by eapply double_loadUser_ledgerOk.
  - apply Forall_fmap. eapply Forall_impl; [exact Hdb|]. by intros u Hu.
Qed.

(** X3. The balance of an account stays what its reward history makes of
    it in doubles: the number that comes of adding to 0, oldest first, the
    table values of the labels of the history. The equality holds for new
    accounts and is kept by every run of spins, [/start] commands and
    resets. *)
Theorem balance_matches_history ops (db : list Double.User.t) :
  Forall Double.ledgerOk db → Forall Double.ledgerOk (Double.run ops db).
Proof.
  revert db. induction ops as [|op ops IH]; intros db Hdb; [exact Hdb|].
  simpl. by apply IH, double_step_ledgerOk.
Qed.

End DoubleEngine.

(** The sums of the machine are not the sums of the decimals. *)
Example double_sums_round :
  (0.2 + 0.1)%float = 0.30000000000000004%float
  ∧ (5 + 0.1 + 0.1 + 0.1)%float = 5.299999999999999%float
  ∧ (5 + 0.1 + 0.1 + 0.1)%float ≠ 5.3%float
  ∧ (17592186044416 + 0.001)%float = 17592186044416%float.
Proof. repeat split; vm_compute; (reflexivity || discriminate). Qed.

(** C9 on four calls against three spins left and a balance of 5, with
    three grants of 0.1 ETH: the balance ends at 5.299999999999999. *)
Lemma serial_spins_grant_min_witness :
  let account := Double.User.mk "u" 3 [] 5 (Some 0) in
  let calls := [(1000, 3 # 4); (2000, 3 # 4); (3000, 3 # 4); (4000, 3 # 4)] in
  countIf Double.isGranted (@Double.spinAll utcHost "u" calls [account]).1
    = Z.min 4 3
  ∧ Double.User.balance <$> (@Double.spinAll utcHost "u" calls [account]).2
    = [5.299999999999999%float].
Proof.
  split; [|vm_compute; reflexivity].
  refine (proj1 (@serial_spins_grant_min utcHost "u" 0 0%nat
                   [(1000, 3 # 4); (2000, 3 # 4); (3000, 3 # 4); (4000, 3 # 4)]
                   [Double.User.mk "u" 3 [] 5 (Some 0)]
                   (Double.User.mk "u" 3 [] 5 (Some 0)) _ _ _ _)).
  - reflexivity.
  - reflexivity.
  - simpl. lia.
  - intros c Hc. apply list_elem_of_In in Hc. simpl in Hc.
    destruct Hc as [<- | [<- | [<- | [<- | []]]]];
      (split; [reflexivity|]; split; [vm_compute; discriminate | reflexivity]).
Defined.

(** X3 on a run that starts from the empty collection and grants 5 USDT
    and twice 0.001 ETH: the balance is 5.002000000000001. *)
Lemma balance_matches_history_witness :
  let signed := Some "id=42&hash=hmac(sha256(123:secret),id=42)" in
  let ops := [OpSpin signed 1000 (1 # 4); OpSpin signed 2000 0;
              OpSpin signed 3000 0] in
  Forall Double.ledgerOk (@Double.run utcHost ops [])
  ∧ Double.User.balance <$> @Double.run utcHost ops []
    = [5.002000000000001%float].
Proof.
  split; [|vm_compute; reflexivity].
  assert (Forall Double.ledgerOk []) as Hempty by apply Forall_nil_2.
  exact (@balance_matches_history utcHost _ [] Hempty).
Defined.

(** * The exact balances and the doubles

    The engine with exact balances, of which the properties of quota,
    identity and answers above are proved, and the engine with double
    balances take the same steps: they answer alike and leave collections
    that are alike, the balances apart. *)

Lemma list_find_sameButBalance telegramId (db : Store)
    (ddb : list Double.User.t) :
  Forall2 sameButBalance db ddb →
  match list_find (λ u, User.telegramId u = telegramId) db,
        list_find (λ u, Double.User.telegramId u = telegramId) ddb with
  | Some (i, u), Some (j, d) => i = j ∧ sameButBalance u d
  | None, None => True
  | _, _ => False
  end.
Proof.
  induction 1 as [|u d db ddb Hud Hall IH]; [done|].
  cbn [list_find].
  destruct Hud as (Hid & Hrest).
  destruct (decide (User.telegramId u = telegramId)) as [Hu | Hu];
    destruct (decide (Double.User.telegramId d = telegramId)) as [Hd | Hd];
    try congruence.
  - split; [reflexivity|]. by split.
  - destruct (list_find _ db) as [[i u']|], (list_find _ ddb) as [[j d']|];
      simpl; try done.
    destruct IH as [-> Hsame]. by split.
Qed.

Lemma draws_agree random :
  match drawReward random, Double.drawReward random with
  | Some r, Some d => sameReward r d
  | None, None => True
  | _, _ => False
  end.
Proof.
  unfold drawReward, Double.drawReward, index.
  change (Double.drawIndex random) with (drawIndex random).
  destruct (drawIndex random <? 0); [done|].
  destruct (Z.to_nat (drawIndex random)) as [|[|[|[|n]]]]; simpl; try done;
    (split; [reflexivity|]); split; intros Hpos; try reflexivity;
    try discriminate Hpos.
Qed.

Section Agreement.

Context `{host : Host}.

Lemma rollover_sameButBalance today u d :
  sameButBalance u d →
  sameButBalance (rollover today u) (Double.rollover today d).
Proof.
  intros (Hid & Hspins & Hrew & Hlast).
  unfold rollover, Double.rollover, rolloverDue, Double.rolloverDue.
  rewrite <- Hlast. destruct (User.lastSpinDate u) as [last|] eqn:Hl; simpl.
  - destruct (negb (toDateString last =? toDateString today));
      repeat split; simpl; congruence.
  - repeat split; simpl; congruence.
Qed.

Lemma applyReward_sameButBalance r dr u d :
  sameReward r dr → sameButBalance u d →
  sameButBalance (applyReward r u) (Double.applyReward dr d).
Proof.
  intros [Hlabel Hpos] (Hid & Hspins & Hrew & Hlast).
  unfold applyReward, Double.applyReward.
  destruct (Qlt_le_dec 0 (value r)) as [Hlt | Hle].
  - rewrite (proj1 Hpos Hlt). repeat split; simpl; try assumption.
    by rewrite Hrew, Hlabel.
  - destruct (0 <? Double.value dr)%float.
    + exfalso. by apply (Qlt_not_le _ _ (proj2 Hpos eq_refl)).
    + by repeat split.
Qed.

(** One spin on both engines. *)
Lemma engines_agree_on_spin telegramId today random (db : Store)
    (ddb : list Double.User.t) :
  Forall2 sameButBalance db ddb →
  sameAnswer (route (spinEngine telegramId today random) db).1
    (Double.route (Double.spinEngine telegramId today random) ddb).1
  ∧ Forall2 sameButBalance
      (route (spinEngine telegramId today random) db).2
      (Double.route (Double.spinEngine telegramId today random) ddb).2.
Proof.
  intros Hall.
  assert (∃ j u d db1 ddb1,
            loadUser telegramId db = (Normal (j, u), db1)
            ∧ Double.loadUser telegramId ddb = (Normal (j, d), ddb1)
            ∧ sameButBalance u d ∧ Forall2 sameButBalance db1 ddb1)
    as (j & u & d & db1 & ddb1 & Hload & Hdload & Hud & Hall1).
  { rewrite loadUser_eq, double_loadUser_eq.
    pose proof (list_find_sameButBalance telegramId db ddb Hall) as Hfind.
    destruct (list_find _ db) as [[i u]|], (list_find _ ddb) as [[j d]|];
      try done.
    - destruct Hfind as [-> Hud]. by exists j, u, d, db, ddb.
    - exists (length db), (User.new telegramId),
        (Double.User.new telegramId), (db ++ [User.new telegramId]),
        (ddb ++ [Double.User.new telegramId]).
      split; [reflexivity|].
      split; [by rewrite (Forall2_length _ _ _ Hall)|].
      assert (sameButBalance (User.new telegramId)
                (Double.User.new telegramId)) as Hnew by by repeat split.
      split; [exact Hnew|]. apply Forall2_app; [exact Hall|].
      by apply Forall2_cons. }
  unfold route, Double.route.
  rewrite spinEngine_eq, Hload.
  unfold Double.spinEngine, mbind, Double.Async_bind. rewrite Hdload.
  cbn [fst snd]. rewrite spinLoaded_eq, double_spinLoaded_eq. cbv zeta.
  pose proof (rollover_sameButBalance today u d Hud) as Hroll.
  destruct Hroll as (Hid & Hspins & Hrew & Hlast).
  rewrite <- Hspins.
  destruct (User.spinsLeft (rollover today u) <=? 0); simpl.
  { split; [|exact Hall1]. by repeat split. }
  pose proof (draws_agree random) as Hdraw.
  destruct (drawReward random) as [r|], (Double.drawReward random) as [dr|];
    try done; simpl.
  - pose proof (applyReward_sameButBalance r dr
                  (User.set_spinsLeft (User.spinsLeft (rollover today u) - 1)
                     (rollover today u))
                  (Double.User.set_spinsLeft
                     (User.spinsLeft (rollover today u) - 1)
                     (Double.rollover today d)) Hdraw) as Hu2.
    destruct Hu2 as (Hid2 & Hspins2 & Hrew2 & Hlast2); [by repeat split|].
    split.
    + split; [reflexivity|]. simpl. split; [apply Hdraw | exact Hspins2].
    + apply Forall2_insert; [exact Hall1|]. by repeat split.
Qed.

(** Every run of spins, [/start] commands and resets leaves the two
    collections alike, the balances apart. *)
Lemma engines_agree_on_runs ops :
  ∀ (db : Store) (ddb : list Double.User.t),
    Forall2 sameButBalance db ddb →
    Forall2 sameButBalance (run ops db) (Double.run ops ddb).
Proof.
  induction ops as [|op ops IH]; intros db ddb Hall; [exact Hall|].
  simpl. apply IH.
  destruct op as [initData today random | telegramId | now]; simpl.
  - unfold post_api_spin, Double.post_api_spin.
    destruct (negb (truthyStr initData)); [exact Hall|].
    unfold route at 1. unfold Double.route at 1.
    unfold mbind, Async_bind, Double.Async_bind, liftC, Double.liftC.
    destruct (verifyTelegram initData) as [ok|e]; [|exact Hall].
    destruct ok; simpl; [|exact Hall].
    destruct (extractTelegramId (default "" initData)) as [tid|e];
      [|exact Hall].
    destruct (negb (truthyStr tid)); [exact Hall|].
    pose proof (engines_agree_on_spin (default "" tid) today random db ddb
                  Hall) as [_ Hstores].
    unfold route, Double.route in Hstores. exact Hstores.
  - unfold bot_start, Double.bot_start, async_try_catch,
      Double.async_try_catch, mbind, Async_bind, Double.Async_bind.
    rewrite loadUser_eq, double_loadUser_eq.
    pose proof (list_find_sameButBalance telegramId db ddb Hall) as Hfind.
    destruct (list_find _ db) as [[i u]|], (list_find _ ddb) as [[j d]|];
      try done; simpl.
    apply Forall2_app; [exact Hall|]. apply Forall2_cons.
    split; [by repeat split | constructor].
  - apply Forall2_fmap. eapply Forall2_impl; [exact Hall|].
    intros u d (Hid & Hspins & Hrew & Hlast). by repeat split.
Qed.

End Agreement.
